(** * UNHCR Geodata Extractor: a shallow embedding of [main.py]

    The program fetches site polygons and site points of one country from
    a remote feature service, buffers the points into polygons, merges
    both groups, shows them in a Streamlit page and exports a selection.

    The embedding follows the Python source function by function.
    - JSON documents are the inductive type [json]; a Python [dict] is a
      [gmap string json], whose equality is the equality of dicts
      (same keys, same values, order of insertion ignored).
    - Python exceptions are the type [exn]; a computation that can raise
      returns a [result]; a computation that also talks to the outside
      (HTTP, the Streamlit page, standard output, the file system)
      lives in the monad [M], which records the [event]s in order.
    - The feature service, the buffering of [shapely] and the text that
      Python prints for exceptions and non-string values are parameters
      of the [Program] section. *)

From Stdlib Require Import ZArith Floats Ascii Uint63.
From stdpp Require Import gmap strings list fin_maps pretty sorting.

#[local] Set Warnings "-register-all,-inexact-float".

(** ** JSON values *)

Inductive json :=
| JNull
| JBool (b : bool)
| JInt (z : Z)
| JFloat (x : float)
| JStr (s : string)
| JArr (l : list json)
| JObj (m : gmap string json).

(** Python's truth value of a JSON value: [None], [False], zero, the
    empty string, the empty list and the empty dict are false. *)
Definition truthy (v : json) : bool :=
  match v with
  | JNull => false
  | JBool b => b
  | JInt z => negb (z =? 0)%Z
  | JFloat x => negb (x =? 0)%float
  | JStr s => negb (String.eqb s EmptyString)
  | JArr l => match l with [] => false | _ => true end
  | JObj m => match map_to_list m with [] => false | _ => true end
  end.

(** ** Exceptions and the two monads *)

Inductive exn :=
| ConnectionError          (* requests: no response at all *)
| HTTPError (status : Z)   (* requests: raise_for_status *)
| JSONDecodeError          (* response.json() on a body that is not JSON *)
| KeyError
| TypeError
| AttributeError
| IndexError
| StopIteration
| AssertionError.

Inductive result (A : Type) :=
| Ok (a : A)
| Raise (e : exn).
Arguments Ok {A} a.
Arguments Raise {A} e.

#[export] Instance result_ret : MRet result := λ A a, Ok a.
#[export] Instance result_bind : MBind result := λ A B f r,
  match r with
  | Ok a => f a
  | Raise e => Raise e
  end.
#[export] Instance result_fmap : FMap result := λ A B f r,
  match r with
  | Ok a => Ok (f a)
  | Raise e => Raise e
  end.

Inductive event :=
| HttpGet (url : string) (params : list (string * json))
| StError (msg : string)
| StWarning (msg : string)
| StWrite (msg : string)
| StSuccess (msg : string)
| Print (msg : string)
| StTitle (text : string)
| SetupFolder (folder : string)
| FoliumMap (lat lon : json)
| FoliumGeoJson (feature : json)
| WriteFile (path : string) (document : json)
| DownloadButton (file_name : string) (document : json).

(** An effectful computation: the events it produced, in order, and its
    outcome. *)
Definition M (A : Type) : Type := list event * result A.

#[export] Instance M_ret : MRet M := λ A a, ([], Ok a).
#[export] Instance M_bind : MBind M := λ A B f m,
  match m with
  | (log, Ok a) => let '(log', r) := f a in (log ++ log', r)
  | (log, Raise e) => (log, Raise e)
  end.

#[export] Instance M_fmap : FMap M := λ A B f m, (m.1, f <$> m.2).

Definition lift {A} (r : result A) : M A := ([], r).
Definition emit (e : event) : M unit := ([e], Ok tt).

(** [try: body except <catches> as e: handler e] *)
Definition try_except {A} (body : M A) (catches : exn → bool)
    (handler : exn → M A) : M A :=
  match body with
  | (log, Raise e) =>
      if catches e then let '(log', r) := handler e in (log ++ log', r)
      else (log, Raise e)
  | (log, Ok a) => (log, Ok a)
  end.

Definition events {A} (m : M A) : list event := m.1.
Definition outcome {A} (m : M A) : result A := m.2.

(** ** Python operations on JSON values *)

(** [v[k]] for a string key. *)
Definition getitem (v : json) (k : string) : result json :=
  match v with
  | JObj m => match m !! k with Some x => Ok x | None => Raise KeyError end
  | _ => Raise TypeError
  end.

(** [v[k] = x] for a string key. *)
Definition setitem (v : json) (k : string) (x : json) : result json :=
  match v with
  | JObj m => Ok (JObj (<[k := x]> m))
  | _ => Raise TypeError
  end.

(** [v.get(k, d)] *)
Definition get_default (v : json) (k : string) (d : json) : result json :=
  match v with
  | JObj m => Ok (default d (m !! k))
  | _ => Raise AttributeError
  end.

(** [v.get(k)] *)
Definition get (v : json) (k : string) : result json := get_default v k JNull.

(** [v[i]] for an integer index [i >= 0]. *)
Definition index (v : json) (i : nat) : result json :=
  match v with
  | JArr l => match l !! i with Some x => Ok x | None => Raise IndexError end
  | JStr s =>
      match String.get i s with
      | Some c => Ok (JStr (String c EmptyString))
      | None => Raise IndexError
      end
  | JObj _ => Raise KeyError
  | _ => Raise TypeError
  end.

(** [len(v)] *)
Definition py_len (v : json) : result nat :=
  match v with
  | JArr l => Ok (length l)
  | JStr s => Ok (String.length s)
  | JObj m => Ok (size m)
  | _ => Raise TypeError
  end.

Definition chars (s : string) : list json :=
  (λ c, JStr (String c EmptyString)) <$> String.list_ascii_of_string s.

(** The items that [for item in v] visits.  A dict yields its keys; the
    programs below only index what they visit by a string key, which
    raises on every key, so the order of the keys is not observable. *)
Definition py_iter (v : json) : result (list json) :=
  match v with
  | JArr l => Ok l
  | JStr s => Ok (chars s)
  | JObj m => Ok (JStr <$> (map_to_list m).*1)
  | _ => Raise TypeError
  end.

(** [for item in v: <mutate item in place>].  The items of a list are
    objects, which the loop body updates where they are; the items of a
    string or the keys of a dict are strings, on which the body can only
    raise. *)
Definition for_each_in_place (f : json → result json) (v : json)
    : result json :=
  match v with
  | JArr l => JArr <$> mapM f l
  | _ => items ← py_iter v; _ ← mapM f items; mret v
  end.

(** [v[:n]] *)
Definition slice_to (n : nat) (v : json) : result json :=
  match v with
  | JStr s => Ok (JStr (String.substring 0 n s))
  | JArr l => Ok (JArr (take n l))
  | _ => Raise TypeError
  end.

(** An element of [set(...)] must be hashable; of the values a slice can
    produce, a string is and a list is not. *)
Definition hashable_str (v : json) : result string :=
  match v with
  | JStr s => Ok s
  | _ => Raise TypeError
  end.

Definition str_le (s t : string) : Prop := String.leb s t = true.
#[export] Instance str_le_dec s t : Decision (str_le s t).
Proof. unfold str_le. apply _. Defined.

(** [sorted(list(set(l)))] on strings. *)
Definition sorted_set (l : list string) : list string :=
  merge_sort str_le (remove_dups l).

(** [sep.join(l)] *)
Fixpoint join (sep : string) (l : list string) : string :=
  match l with
  | [] => EmptyString
  | [s] => s
  | s :: l' => s +:+ sep +:+ join sep l'
  end.

(** ** The feature service *)

Inductive response :=
| NoResponse                                  (* transport failure *)
| Response (status : Z) (body : option json). (* [None]: body is not JSON *)

(** Constants of the module. *)
Definition BASE_URL : string :=
  "https://gis.unhcr.org/arcgis/rest/services/core_v2/".
Definition COMMON_PARAMS : list (string * json) := [("f", JStr "geojson")].
Definition EXPORT_FOLDER : string := "data".

Definition POLYGON_URL : string :=
  BASE_URL +:+ "wrl_prp_a_unhcr/FeatureServer/0/query".
Definition POINT_URL : string :=
  BASE_URL +:+ "wrl_prp_p_unhcr_PoC/FeatureServer/0/query".

Section Program.

(** The remote service: the response to a GET of a URL with query
    parameters. *)
Variable service : string → list (string * json) → response.
(** Whether the installed [requests] raises its own
    [requests.JSONDecodeError], a [RequestException], from
    [response.json()] (it does from version 2.27 on), or lets the
    [ValueError] of the json module through. *)
Variable json_error_is_request_exception : bool.
(** [str(e)] of an exception. *)
Variable exn_text : exn → string.
(** What an f-string prints for a value that is not a string. *)
Variable py_repr : json → string.
(** [mapping(Point(coords).buffer(r))] of shapely. *)
Variable point_buffer : json → float → result json.

(** [f"{v}"] *)
Definition py_str (v : json) : string :=
  match v with
  | JStr s => s
  | _ => py_repr v
  end.

(** [except requests.RequestException] *)
Definition is_request_exception (e : exn) : bool :=
  match e with
  | ConnectionError | HTTPError _ => true
  | JSONDecodeError => json_error_is_request_exception
  | _ => false
  end.

(** [session.get(url, params=params)] *)
Definition session_get (url : string) (params : list (string * json))
    : M response :=
  emit (HttpGet url params);;
  match service url params with
  | NoResponse => lift (Raise ConnectionError)
  | r => mret r
  end.

(** [response.raise_for_status()] *)
Definition raise_for_status (r : response) : result unit :=
  match r with
  | Response status _ =>
      if ((400 <=? status) && (status <? 600))%Z
      then Raise (HTTPError status) else Ok tt
  | NoResponse => Raise ConnectionError
  end.

(** [response.json()] *)
Definition response_json (r : response) : result json :=
  match r with
  | Response _ (Some v) => Ok v
  | _ => Raise JSONDecodeError
  end.

(** *** list_countries *)

Definition site_code_prefix (item : json) : result json :=
  p ← getitem item "properties";
  sc ← getitem p "site_code";
  slice_to 3 sc.

Definition list_countries_params : list (string * json) :=
  COMMON_PARAMS ++
    [("where", JStr "1=1"); ("outFields", JStr "*");
     ("returnGeometry", JStr "false")].

Definition list_countries : M (list string) :=
  let params := list_countries_params in
  try_except
    (response ← session_get POLYGON_URL params;
     lift (raise_for_status response);;
     data ← lift (response_json response);
     features ← lift (get_default data "features" (JArr []));
     items ← lift (py_iter features);
     site_codes ← lift (mapM site_code_prefix items);
     codes ← lift (mapM hashable_str site_codes);
     mret (sorted_set codes))
    is_request_exception
    (λ e, emit (StError ("Failed to fetch data: " +:+ exn_text e));;
          mret []).

(** *** extract_site_codes *)

Definition extract_site_codes (country_data : json) : result (list json) :=
  features ← get_default country_data "features" (JArr []);
  items ← py_iter features;
  mapM (λ item, p ← getitem item "properties"; getitem p "site_code") items.

(** *** query_points *)

Definition where_clause (country_code : string) (site_codes : list json)
    : string :=
  let site_codes_quoted := (λ code, "'" +:+ py_str code +:+ "'") <$> site_codes in
  "iso3='" +:+ country_code +:+ "' AND pcode NOT IN (" +:+
    join "," site_codes_quoted +:+ ")".

Definition add_prefixed_gis_name (feature : json) : result json :=
  p ← getitem feature "properties";
  name ← getitem p "gis_name";
  p' ← setitem p "prefixed_gis_name" (JStr ("POINT_" +:+ py_str name));
  setitem feature "properties" p'.

Definition query_points_params (country_code : string)
    (site_codes : list json) : list (string * json) :=
  [("where", JStr (where_clause country_code site_codes));
   ("outFields", JStr "pcode,gis_name");
   ("f", JStr "geojson");
   ("returnGeometry", JStr "true")].

Definition query_points (country_code : string) (site_codes : list json)
    : M json :=
  let params := query_points_params country_code site_codes in
  try_except
    (response ← session_get POINT_URL params;
     lift (raise_for_status response);;
     data ← lift (response_json response);
     features ← lift (getitem data "features");
     data ← (if truthy features
             then features' ← lift (for_each_in_place add_prefixed_gis_name features);
                  lift (setitem data "features" features')
             else mret data);
     lift (setitem data "feature_type" (JStr "Point")))
    is_request_exception
    (λ e, emit (Print ("Failed to fetch data: " +:+ exn_text e));;
          mret (JObj ∅)).

(** *** query_polygons *)

Definition query_polygons_params (country_code : string)
    : list (string * json) :=
  [("where", JStr ("site_code LIKE '" +:+ country_code +:+ "%'"));
   ("outFields", JStr "site_code, name");
   ("f", JStr "geojson");
   ("returnGeometry", JStr "true");
   ("geometryType", JStr "esriGeometryPolygon");
   ("outSR", JInt 4326)].

Definition query_polygons (country_code : string) : M json :=
  let params := query_polygons_params country_code in
  try_except
    (response ← session_get POLYGON_URL params;
     lift (raise_for_status response);;
     data ← lift (response_json response);
     lift (setitem data "feature_type" (JStr "Polygon")))
    is_request_exception
    (λ e, emit (StError ("Failed to fetch data: " +:+ exn_text e));;
          mret (JObj ∅)).

(** *** gen_polygons *)

Definition buffered_feature (buffer_size : float) (feature : json)
    : result json :=
  geometry ← getitem feature "geometry";
  point_coords ← getitem geometry "coordinates";
  buffer ← point_buffer point_coords buffer_size;
  properties ← getitem feature "properties";
  mret (JObj {[ "type" := JStr "Feature";
                "geometry" := buffer;
                "properties" := properties ]}).

Definition gen_polygons (data : json) (buffer_size : float) : result json :=
  features ← get_default data "features" (JArr []);
  items ← py_iter features;
  buffered_features ← mapM (buffered_feature buffer_size) items;
  let buffered_geojson :=
    JObj {[ "type" := JStr "FeatureCollection";
            "features" := JArr buffered_features ]} in
  n ← py_len features;
  if bool_decide (length buffered_features = n)
  then mret buffered_geojson
  else Raise AssertionError.

(** *** process_country *)

(** [feature['properties']['feature_type'] = tag] *)
Definition tag_feature (tag : string) (feature : json) : result json :=
  p ← getitem feature "properties";
  p' ← setitem p "feature_type" (JStr tag);
  setitem feature "properties" p'.

(** [target.extend(more)] *)
Definition extend (target more : json) : result json :=
  match target with
  | JArr l => items ← py_iter more; mret (JArr (l ++ items))
  | _ => Raise AttributeError
  end.

Definition process_country (country_code : string)
    (buffer_size_points : float) : M (option json) :=
  official_polygons ← query_polygons country_code;
  if negb (truthy official_polygons) then
    emit (Print "No data found for the country");;
    mret None
  else
    features ← lift (getitem official_polygons "features");
    n ← lift (py_len features);
    emit (Print ("Successfully fetched " +:+ pretty n +:+ " official polygons"));;
    features ← lift (for_each_in_place (tag_feature "Official Polygon") features);
    official_polygons ← lift (setitem official_polygons "features" features);
    site_codes ← lift (extract_site_codes official_polygons);
    points_data ← query_points country_code site_codes;
    no_points ←
      (if negb (truthy points_data) then mret true
       else pf ← lift (get points_data "features"); mret (negb (truthy pf)));
    if no_points : bool then
      emit (Print "No points data found");;
      mret (Some official_polygons)
    else
      pf ← lift (getitem points_data "features");
      n ← lift (py_len pf);
      emit (Print ("Successfully fetched " +:+ pretty n +:+ " points"));;
      generated_polygons ← lift (gen_polygons points_data buffer_size_points);
      gf ← lift (get_default generated_polygons "features" (JArr []));
      gf ← lift (for_each_in_place (tag_feature "Generated Polygon") gf);
      generated_polygons ← lift (setitem generated_polygons "features" gf);
      country_polygons ← lift (getitem official_polygons "features");
      gf ← lift (get generated_polygons "features");
      country_polygons ←
        (if truthy gf
         then gf ← lift (getitem generated_polygons "features");
              lift (extend country_polygons gf)
         else mret country_polygons);
      mret (Some (JObj {[ "type" := JStr "FeatureCollection";
                          "features" := country_polygons ]})).

(** *** The Streamlit page: selection, display names, export *)

(** [k in v] for a string [k]. *)
Definition contains (v : json) (k : string) : result bool :=
  match v with
  | JObj m => Ok (bool_decide (is_Some (m !! k)))
  | JArr l =>
      Ok (existsb (λ x, match x with JStr s => String.eqb s k | _ => false end) l)
  | JStr s => Ok (bool_decide (is_Some (String.index 0 k s)))
  | _ => Raise TypeError
  end.

(** [v.pop(k)] for a string [k]: the value and what is left of [v]. *)
Definition pop (v : json) (k : string) : result (json * json) :=
  match v with
  | JObj m =>
      match m !! k with
      | Some x => Ok (x, JObj (delete k m))
      | None => Raise KeyError
      end
  | JArr _ => Raise TypeError
  | _ => Raise AttributeError
  end.

(** [if old in feature['properties']:
       feature['properties'][new] = feature['properties'].pop(old)] *)
Definition rename_property (old new : string) (feature : json)
    : result json :=
  p ← getitem feature "properties";
  present ← contains p old;
  if present : bool then
    '(x, p) ← pop p old;
    p ← setitem p new x;
    setitem feature "properties" p
  else mret feature.

(** The loop body of "Fix renaming". *)
Definition display_rename (feature : json) : result json :=
  feature ← rename_property "pcode" "site_code" feature;
  rename_property "gis_name" "name" feature.

(** The loop body of "Revert key names for saving the GeoJSON file". *)
Definition export_rename (feature : json) : result json :=
  feature ← rename_property "site_code" "pcode" feature;
  rename_property "name" "gis_name" feature.

Definition feature_label (feature : json) : result string :=
  p ← getitem feature "properties";
  site_code ← get_default p "site_code" (JStr "N/A");
  name ← get_default p "name" (JStr "N/A");
  feature_type ← get_default p "feature_type" (JStr "N/A");
  mret (py_str site_code +:+ " - " +:+ py_str name +:+
        " (" +:+ py_str feature_type +:+ ")").

(** [next(feature for feature, label in zip(feature_options, feature_labels)
          if label == selected_label)] *)
Definition select_feature (feature_options : list json)
    (feature_labels : list string) (selected_label : option string)
    : result json :=
  match filter (λ fl, Some fl.2 = selected_label)
               (zip feature_options feature_labels) with
  | fl :: _ => Ok fl.1
  | [] => Raise StopIteration
  end.

Definition is_str (v : json) (s : string) : bool :=
  match v with
  | JStr t => String.eqb t s
  | _ => false
  end.

(** The coordinates on which the map is centred: latitude, longitude. *)
Definition map_center (selected_feature : json) : result (json * json) :=
  geometry ← getitem selected_feature "geometry";
  ty ← getitem geometry "type";
  coordinates ←
    (if is_str ty "Polygon" then
       c ← getitem geometry "coordinates"; c ← index c 0; index c 0
     else
       ty ← getitem geometry "type";
       if is_str ty "MultiPolygon" then
         c ← getitem geometry "coordinates";
         c ← index c 0; c ← index c 0; index c 0
       else getitem geometry "coordinates");
  lat ← index coordinates 1;
  lon ← index coordinates 0;
  mret (lat, lon).

(** One turn of the loop that adds the features to the map (the style
    of the outline is not part of the model). *)
Definition add_to_map (feature : json) : M unit :=
  geometry ← lift (getitem feature "geometry");
  ty ← lift (getitem geometry "type");
  if is_str ty "Polygon" || is_str ty "MultiPolygon"
  then emit (FoliumGeoJson feature)
  else mret tt.

(** The positions, objects and labels that the export keeps:
    [[feature for feature, label in zip(feature_options, feature_labels)
      if label in selected_features_to_export]]. *)
Definition filtered_features (feature_options : list json)
    (feature_labels : list string) (selected_features_to_export : list string)
    : list (nat * json) :=
  (λ x, (x.1, x.2.1)) <$>
    filter (λ x, x.2.2 ∈ selected_features_to_export)
           (imap (λ i fl, (i, fl)) (zip feature_options feature_labels)).

(** What [if st.button("Generate GeoJSON file"):] guards.  The exported
    features are objects of the session's list: the list that comes back
    has them renamed at their positions. *)
Definition export_block (country_code : option string)
    (feature_options : list json) (feature_labels : list string)
    (selected_features_to_export : list string) : M (list json) :=
  match selected_features_to_export with
  | [] =>
      emit (StError "No feature selected. Please select at least one feature.");;
      mret feature_options
  | _ =>
      let filtered_output_file :=
        EXPORT_FOLDER +:+ "/" +:+ default "None" country_code +:+
        "_filtered_polygons.geojson" in
      let filtered :=
        filtered_features feature_options feature_labels
                          selected_features_to_export in
      renamed ← lift (mapM export_rename filtered.*2);
      let filtered_data :=
        JObj {[ "type" := JStr "FeatureCollection";
                "features" := JArr renamed ]} in
      emit (StSuccess ("Exported " +:+ pretty (length renamed) +:+
                       " features to " +:+ filtered_output_file));;
      emit (WriteFile filtered_output_file filtered_data);;
      emit (DownloadButton (default "None" country_code +:+
                            "_filtered_polygons.geojson") filtered_data);;
      mret (foldr (λ x store, <[x.1 := x.2]> store) feature_options
                  (zip filtered.*1 renamed))
  end.

(** The state of the widgets when the script runs. *)
Record widgets := {
  country_code : option string;       (* sidebar selectbox *)
  buffer_size_points : float;         (* sidebar slider *)
  process_clicked : bool;             (* "Process Country" *)
  selected_label : option string;     (* "Select a feature to view details:" *)
  selected_features_to_export : list string;  (* multiselect *)
  generate_clicked : bool             (* "Generate GeoJSON file" *)
}.

(** The part under [if 'country_data' in st.session_state:]. *)
Definition display (w : widgets) (country_data : json) : M json :=
  features ← lift (getitem country_data "features");
  feature_options ← lift (py_iter features);
  feature_labels ← lift (mapM feature_label feature_options);
  selected_feature ←
    lift (select_feature feature_options feature_labels (selected_label w));
  '(lat, lon) ← lift (map_center selected_feature);
  emit (FoliumMap lat lon);;
  mapM add_to_map feature_options;;
  feature_options ← lift (mapM display_rename feature_options);
  feature_options ←
    (if generate_clicked w
     then export_block (country_code w) feature_options feature_labels
                       (selected_features_to_export w)
     else mret feature_options);
  lift (setitem country_data "features" (JArr feature_options)).

(** One run of the script, from the session state before it to the
    session state after it. *)
Definition app (session_state : option json) (w : widgets)
    : M (option json) :=
  emit (SetupFolder EXPORT_FOLDER);;
  emit (StTitle "UNHCR Geodata Extractor");;
  country_list ← list_countries;
  session_state ←
    (if process_clicked w then
       match country_code w with
       | Some code =>
           if negb (String.eqb code EmptyString) then
             emit (StWrite ("Processing country: " +:+ code +:+
                            " with buffer size for points: " +:+
                            py_str (JFloat (buffer_size_points w))));;
             country_data ← process_country code (buffer_size_points w);
             match country_data with
             | Some d => if truthy d then mret (Some d) else mret session_state
             | None => mret session_state
             end
           else emit (StWarning "Please select a country");; mret session_state
       | None => emit (StWarning "Please select a country");; mret session_state
       end
     else mret session_state);
  match session_state with
  | Some country_data => Some <$> display w country_data
  | None => mret None
  end.
(* [country_list] feeds the options of the country selectbox; the choice
   made there is [country_code w]. *)

End Program.

(** ** The filter expressions of the service

    The service reads the [where] parameter as an SQL-92 search
    condition.  The recogniser below covers the fragment the program
    sends: a field or a number compared with a value by [=] or [LIKE], or
    tested by [IN] or [NOT IN] against a parenthesised list of one or more
    values (SQL-92 has no empty list of values), a value being a string
    literal, a number or a field, and such conditions joined by [AND] or
    [OR]. *)
Module Sql.

Inductive token :=
| Word (w : string)
| Literal (s : string)
| Equals
| LParen
| RParen
| Comma.

Inductive lex_mode :=
| Idle
| InWord (acc : string)
| InLiteral (acc : string)
(* a quote met inside a literal: its end, or the first half of a
   doubled quote *)
| QuoteSeen (acc : string).

Definition is_word_char (c : ascii) : bool :=
  let n := nat_of_ascii c in
  ((65 <=? n) && (n <=? 90)) || ((97 <=? n) && (n <=? 122))
  || ((48 <=? n) && (n <=? 57)) || (n =? 95).

Definition snoc (acc : string) (c : ascii) : string :=
  acc +:+ String c EmptyString.

Fixpoint lex (m : lex_mode) (s : string) : option (list token) :=
  match s with
  | EmptyString =>
      match m with
      | Idle => Some []
      | InWord acc => Some [Word acc]
      | InLiteral _ => None
      | QuoteSeen acc => Some [Literal acc]
      end
  | String c s' =>
      (* [c] read outside of a word and of a literal *)
      let fresh (_ : unit) :=
        if Ascii.eqb c " " then lex Idle s'
        else if Ascii.eqb c "'" then lex (InLiteral EmptyString) s'
        else if Ascii.eqb c "=" then (Equals ::.) <$> lex Idle s'
        else if Ascii.eqb c "(" then (LParen ::.) <$> lex Idle s'
        else if Ascii.eqb c ")" then (RParen ::.) <$> lex Idle s'
        else if Ascii.eqb c "," then (Comma ::.) <$> lex Idle s'
        else if is_word_char c then lex (InWord (String c EmptyString)) s'
        else None in
      match m with
      | Idle => fresh tt
      | InWord acc =>
          if is_word_char c then lex (InWord (snoc acc c)) s'
          else (Word acc ::.) <$> fresh tt
      | InLiteral acc =>
          if Ascii.eqb c "'" then lex (QuoteSeen acc) s'
          else lex (InLiteral (snoc acc c)) s'
      | QuoteSeen acc =>
          if Ascii.eqb c "'" then lex (InLiteral (snoc acc c)) s'
          else (Literal acc ::.) <$> fresh tt
      end
  end.

Inductive state :=
| Field        (* a condition starts here *)
| Operator     (* after the field *)
| Operand      (* after [=] or [LIKE] *)
| AfterNot
| AfterIn
| FirstValue   (* after the opening parenthesis *)
| ValueEnd     (* after a value of the list *)
| NextValue    (* after a comma of the list *)
| Complete.    (* a whole condition has been read *)

Definition is_keyword (w : string) : bool :=
  String.eqb w "AND" || String.eqb w "OR" || String.eqb w "NOT"
  || String.eqb w "IN" || String.eqb w "LIKE".

Definition step (st : state) (t : token) : option state :=
  match st, t with
  | Field, Word w => if is_keyword w then None else Some Operator
  | Operator, Equals => Some Operand
  | Operator, Word w =>
      if String.eqb w "LIKE" then Some Operand
      else if String.eqb w "NOT" then Some AfterNot
      else if String.eqb w "IN" then Some AfterIn
      else None
  | AfterNot, Word w =>
      if String.eqb w "LIKE" then Some Operand
      else if String.eqb w "IN" then Some AfterIn
      else None
  | Operand, Literal _ => Some Complete
  | Operand, Word w => if is_keyword w then None else Some Complete
  | AfterIn, LParen => Some FirstValue
  | FirstValue, Literal _ => Some ValueEnd
  | FirstValue, Word w => if is_keyword w then None else Some ValueEnd
  | NextValue, Literal _ => Some ValueEnd
  | NextValue, Word w => if is_keyword w then None else Some ValueEnd
  | ValueEnd, Comma => Some NextValue
  | ValueEnd, RParen => Some Complete
  | Complete, Word w =>
      if String.eqb w "AND" || String.eqb w "OR" then Some Field else None
  | _, _ => None
  end.

Fixpoint run (st : state) (ts : list token) : option state :=
  match ts with
  | [] => Some st
  | t :: ts' => st' ← step st t; run st' ts'
  end.

Definition well_formed (filter : string) : bool :=
  match lex Idle filter ≫= run Field with
  | Some Complete => true
  | _ => false
  end.

End Sql.

(** ** Well-formed answers of the service *)

(** A status on which [raise_for_status] does not raise. *)
Definition ok_status (status : Z) : Prop := ¬ (400 ≤ status < 600)%Z.

(** The requests that fail with [e]: no response, or a status from 400
    to 599. *)
Definition request_fails (service : string → list (string * json) → response)
    (url : string) (params : list (string * json)) (e : exn) : Prop :=
  (service url params = NoResponse ∧ e = ConnectionError)
  ∨ ∃ status body, service url params = Response status body
      ∧ ¬ ok_status status ∧ e = HTTPError status.

(** [f] is an object whose [properties] is the dict [p]. *)
Definition feature_with (p : gmap string json) (f : json) : Prop :=
  ∃ m, f = JObj m ∧ m !! "properties" = Some (JObj p).

(** [f] is a feature whose [site_code] is [code]. *)
Definition has_site_code (code : json) (f : json) : Prop :=
  ∃ p, feature_with p f ∧ p !! "site_code" = Some code.

(** [f] is a feature of the polygon layer with the string [code] as its
    site code. *)
Definition site_feature (code : string) (f : json) : Prop :=
  has_site_code (JStr code) f.

(** [f] with [feature_type] set to [tag] in its properties. *)
Definition with_feature_type (tag : string) (f : json) : json :=
  match f with
  | JObj m =>
      match m !! "properties" with
      | Some (JObj p) =>
          JObj (<["properties" := JObj (<["feature_type" := JStr tag]> p)]> m)
      | _ => f
      end
  | _ => f
  end.

(** A collection of features as the program builds it. *)
Definition feature_collection (features : list json) : json :=
  JObj {[ "type" := JStr "FeatureCollection"; "features" := JArr features ]}.

(** A GeoJSON position: two or three numbers. *)
Definition is_number (v : json) : bool :=
  match v with
  | JInt _ | JFloat _ => true
  | _ => false
  end.

Definition is_position (v : json) : bool :=
  match v with
  | JArr [x; y] => is_number x && is_number y
  | JArr [x; y; z] => is_number x && is_number y && is_number z
  | _ => false
  end.

(** [f] is a point feature: an object with properties [p] and a geometry
    of type [Point] at the position [coords]. *)
Definition point_feature (p coords : json) (f : json) : Prop :=
  ∃ m g, f = JObj m
    ∧ m !! "properties" = Some p
    ∧ m !! "geometry" = Some (JObj g)
    ∧ g !! "type" = Some (JStr "Point")
    ∧ g !! "coordinates" = Some coords
    ∧ is_position coords = true.

(** [f] is a point feature with the properties [p] whose position
    shapely buffers at radius [r] into the geometry [g].  Nothing is
    assumed of shapely elsewhere: it raises for an infinite radius and for
    a coordinate outside the floats, and [gen_polygons] raises with it. *)
Definition buffered_point (point_buffer : json → float → result json)
    (r : float) (p g : json) (f : json) : Prop :=
  ∃ coords, point_feature p coords f ∧ point_buffer coords r = Ok g.

(** [gen] is the polygon generated from the point feature [pt] at radius
    [r]: the buffer of its position, with the properties of [pt] and the
    tag of the generated polygons. *)
Definition generated_from (point_buffer : json → float → result json)
    (r : float) (pt gen : json) : Prop :=
  ∃ p coords g,
    point_feature (JObj p) coords pt
    ∧ point_buffer coords r = Ok g
    ∧ gen = JObj {[ "type" := JStr "Feature";
                    "geometry" := g;
                    "properties" :=
                      JObj (<["feature_type" := JStr "Generated Polygon"]> p) ]}.

(** ** The names of the properties

    What the two renaming loops do to the properties of a feature. *)

(** [if old in p: p[new] = p.pop(old)] *)
Definition rename_key (old new : string) (p : gmap string json)
    : gmap string json :=
  match p !! old with
  | Some x => <[new := x]> (delete old p)
  | None => p
  end.

(** "Fix renaming": the names that the page shows. *)
Definition display_names (p : gmap string json) : gmap string json :=
  rename_key "gis_name" "name" (rename_key "pcode" "site_code" p).

(** "Revert key names": the names that the file holds. *)
Definition export_names (p : gmap string json) : gmap string json :=
  rename_key "name" "gis_name" (rename_key "site_code" "pcode" p).

(** [f] with [p] as its properties. *)
Definition with_properties (p : gmap string json) (f : json) : json :=
  match f with
  | JObj m => JObj (<["properties" := JObj p]> m)
  | _ => f
  end.


(** The file of the export and the name of the download. *)
Definition export_path (country_code : option string) : string :=
  EXPORT_FOLDER +:+ "/" +:+ default "None" country_code +:+
  "_filtered_polygons.geojson".

Definition export_name (country_code : option string) : string :=
  default "None" country_code +:+ "_filtered_polygons.geojson".

(** The features that the list comprehension of the export keeps. *)
Definition kept (fo : list json) (fl sel : list string) : list json :=
  (filter (λ x, x.2 ∈ sel) (zip fo fl)).*1.

(** A fetch that ends in the handler of the client with [e]: the request
    fails, or the body is not JSON and [requests] raises its own error
    for it. *)
Definition fetch_fails (service : string → list (string * json) → response)
    (json_error_is_request_exception : bool)
    (url : string) (params : list (string * json)) (e : exn) : Prop :=
  request_fails service url params e
  ∨ ∃ status, service url params = Response status None
      ∧ ok_status status
      ∧ json_error_is_request_exception = true
      ∧ e = JSONDecodeError.

(** [f] is a feature whose properties hold no [key]. *)
Definition lacks (key : string) (f : json) : Prop :=
  ∃ p, feature_with p f ∧ p !! key = None.

(** [f'] is the point feature [f] with its [prefixed_gis_name]. *)
Definition prefixed (py_repr : json → string) (f f' : json) : Prop :=
  ∃ m p name,
    f = JObj m
    ∧ m !! "properties" = Some (JObj p)
    ∧ p !! "gis_name" = Some name
    ∧ f' = JObj (<["properties" :=
                    JObj (<["prefixed_gis_name" :=
                             JStr ("POINT_" +:+ py_str py_repr name)]> p)]> m).

(** [gen] is what [process_country] makes of the point [pt] of the point
    layer: the buffer of its position at radius [r], with the properties
    of [pt], its [prefixed_gis_name] and the tag of the generated
    polygons. *)
Definition generated_point (py_repr : json → string)
    (point_buffer : json → float → result json) (r : float)
    (pt gen : json) : Prop :=
  ∃ m p name geometry coords g,
    pt = JObj m
    ∧ m !! "properties" = Some (JObj p)
    ∧ p !! "gis_name" = Some name
    ∧ m !! "geometry" = Some (JObj geometry)
    ∧ geometry !! "coordinates" = Some coords
    ∧ point_buffer coords r = Ok g
    ∧ gen = JObj {[ "type" := JStr "Feature";
                    "geometry" := g;
                    "properties" :=
                      JObj (<["feature_type" := JStr "Generated Polygon"]>
                             (<["prefixed_gis_name" :=
                                  JStr ("POINT_" +:+ py_str py_repr name)]> p)) ]}.

(** The positions and objects that the export keeps of a list of
    features paired with their labels, the positions counted from [k]. *)
Definition picked (sel : list string) (k : nat) (l : list (json * string))
    : list (nat * json) :=
  (λ x, (x.1, x.2.1)) <$>
    filter (λ x, x.2.2 ∈ sel) (imap (λ i x, (k + i, x)) l).

(** The session's list after the export has renamed the objects [ps] at
    their positions. *)
Definition store_after (ps : list (nat * json)) (renamed : list json)
    (store : list json) : list json :=
  foldr (λ x store, <[x.1 := x.2]> store) store (zip ps.*1 renamed).
(** A string without apostrophe. *)
Fixpoint quote_free (s : string) : bool :=
  match s with
  | EmptyString => true
  | String c s' => negb (Ascii.eqb c "'") && quote_free s'
  end.

(** The tokens of a parenthesised list of string literals, from its first
    value on. *)
Fixpoint value_list_tokens (names : list string) : list Sql.token :=
  match names with
  | [] => [Sql.RParen]
  | [n] => [Sql.Literal n; Sql.RParen]
  | n :: ns => Sql.Literal n :: Sql.Comma :: value_list_tokens ns
  end.

(** ** Sample data: features, services and a stand-in for shapely *)
Module Fixtures.

Definition feature (properties : gmap string json) (geometry : json) : json :=
  JObj {[ "type" := JStr "Feature";
          "properties" := JObj properties;
          "geometry" := geometry ]}.

Definition point (x y : float) : json :=
  JObj {[ "type" := JStr "Point";
          "coordinates" := JArr [JFloat x; JFloat y] ]}.

Definition square (x y r : float) : json :=
  JObj {[ "type" := JStr "Polygon";
          "coordinates" :=
            JArr [JArr [JArr [JFloat (x - r); JFloat (y - r)];
                        JArr [JFloat (x + r); JFloat (y - r)];
                        JArr [JFloat (x + r); JFloat (y + r)];
                        JArr [JFloat (x - r); JFloat (y + r)];
                        JArr [JFloat (x - r); JFloat (y - r)]]] ]}.

(** A JSON number as a float. *)
Definition number (v : json) : option float :=
  match v with
  | JFloat x => Some x
  | JInt z =>
      Some (if (z <? 0)%Z then (- of_uint63 (of_Z (- z)))%float
            else of_uint63 (of_Z z))
  | _ => None
  end.

(** A stand-in for the buffer of shapely: the square around the point. *)
Definition square_buffer (coords : json) (r : float) : result json :=
  match coords with
  | JArr (x :: y :: _) =>
      match number x, number y with
      | Some x, Some y => Ok (square x y r)
      | _, _ => Raise TypeError
      end
  | _ => Raise TypeError
  end.

Definition text_of_exn (e : exn) : string :=
  match e with
  | ConnectionError => "connection failed"
  | HTTPError status => pretty status +:+ " Error"
  | _ => "error"
  end.

Definition repr (v : json) : string :=
  match v with
  | JNull => "None"
  | JInt z => pretty z
  | _ => "?"
  end.

Definition polygons_ABC : list json :=
  [feature {[ "site_code" := JStr "ABC001"; "name" := JStr "North" ]}
           (square 1 1 0.5);
   feature {[ "site_code" := JStr "ABC002"; "name" := JStr "South" ]}
           (square 3 3 0.5)].

Definition points_ABC : list json :=
  [feature {[ "pcode" := JStr "ABC003"; "gis_name" := JStr "East" ]}
           (point 5 5);
   feature {[ "pcode" := JStr "ABC004"; "gis_name" := JStr "West" ]}
           (point 7 7)].

(** The service of the example: two official polygons and, once the
    two sites are excluded, two points. *)
Definition service_ABC (url : string) (params : list (string * json))
    : response :=
  if String.eqb url POLYGON_URL then Response 200 (Some (feature_collection polygons_ABC))
  else Response 200 (Some (feature_collection points_ABC)).

(** Polygons as above, no point left. *)
Definition service_no_points (url : string) (params : list (string * json))
    : response :=
  if String.eqb url POLYGON_URL then Response 200 (Some (feature_collection polygons_ABC))
  else Response 200 (Some (feature_collection [])).

(** Polygons as above, the point layer answers 500. *)
Definition service_points_down (url : string) (params : list (string * json))
    : response :=
  if String.eqb url POLYGON_URL then Response 200 (Some (feature_collection polygons_ABC))
  else Response 500 None.

(** A country without any site: both layers answer with zero features. *)
Definition service_empty (url : string) (params : list (string * json))
    : response :=
  Response 200 (Some (feature_collection [])).

(** Nothing answers. *)
Definition service_down (url : string) (params : list (string * json))
    : response :=
  NoResponse.

(** A polygon layer with a feature that has no [site_code]. *)
Definition service_no_site_code (url : string) (params : list (string * json))
    : response :=
  Response 200 (Some (feature_collection [feature {[ "name" := JStr "North" ]}
                                          (square 1 1 0.5)])).

(** The point layer answers 200 with an error document, as ArcGIS does
    for a filter it cannot read. *)
Definition service_error_document (url : string)
    (params : list (string * json)) : response :=
  if String.eqb url POLYGON_URL then Response 200 (Some (feature_collection polygons_ABC))
  else Response 200 (Some (JObj {[ "error" := JObj {[ "code" := JInt 400 ]} ]})).

(** Two sites that share their code, name and kind. *)
Definition twins : list json :=
  [feature {[ "site_code" := JStr "ABC001"; "name" := JStr "North";
              "feature_type" := JStr "Official Polygon" ]}
           (square 1 1 0.5);
   feature {[ "site_code" := JStr "ABC001"; "name" := JStr "North";
              "feature_type" := JStr "Official Polygon" ]}
           (square 3 3 0.5)].

(** A polygon layer with a site code of two characters. *)
Definition service_short_code (url : string) (params : list (string * json))
    : response :=
  Response 200 (Some (feature_collection [feature {[ "site_code" := JStr "AB" ]}
                                          (square 1 1 0.5)])).

(** The answers of [service_ABC] and what the client makes of them. *)
Definition answer_ABC : gmap string json :=
  {[ "type" := JStr "FeatureCollection"; "features" := JArr polygons_ABC ]}.

Definition points_answer_ABC : gmap string json :=
  {[ "type" := JStr "FeatureCollection"; "features" := JArr points_ABC ]}.

Definition official_ABC : gmap string json :=
  <["feature_type" := JStr "Polygon"]> answer_ABC.

Definition points_returned : list json :=
  [feature {[ "pcode" := JStr "ABC003"; "gis_name" := JStr "East";
              "prefixed_gis_name" := JStr "POINT_East" ]} (point 5 5);
   feature {[ "pcode" := JStr "ABC004"; "gis_name" := JStr "West";
              "prefixed_gis_name" := JStr "POINT_West" ]} (point 7 7)].

Definition points_data_ABC : gmap string json :=
  <["feature_type" := JStr "Point"]>
    {[ "type" := JStr "FeatureCollection"; "features" := JArr points_returned ]}.

Definition generated_ABC : list json :=
  [JObj {[ "type" := JStr "Feature";
           "geometry" := square 5 5 0.01;
           "properties" :=
             JObj {[ "pcode" := JStr "ABC003"; "gis_name" := JStr "East";
                     "prefixed_gis_name" := JStr "POINT_East";
                     "feature_type" := JStr "Generated Polygon" ]} ]};
   JObj {[ "type" := JStr "Feature";
           "geometry" := square 7 7 0.01;
           "properties" :=
             JObj {[ "pcode" := JStr "ABC004"; "gis_name" := JStr "West";
                     "prefixed_gis_name" := JStr "POINT_West";
                     "feature_type" := JStr "Generated Polygon" ]} ]}].

Definition polygons_log : list event :=
  [HttpGet POLYGON_URL (query_polygons_params "ABC")].

Definition points_log : list event :=
  [HttpGet POINT_URL
     (query_points_params repr "ABC" [JStr "ABC001"; JStr "ABC002"])].

(** The twins as the export writes them, and the labels of the page. *)
Definition twins_exported : list json :=
  [feature {[ "pcode" := JStr "ABC001"; "gis_name" := JStr "North";
              "feature_type" := JStr "Official Polygon" ]}
           (square 1 1 0.5);
   feature {[ "pcode" := JStr "ABC001"; "gis_name" := JStr "North";
              "feature_type" := JStr "Official Polygon" ]}
           (square 3 3 0.5)].

Definition twin_label : string := "ABC001 - North (Official Polygon)".
Definition north_label : string := "ABC001 - North (N/A)".
Definition south_label : string := "ABC002 - South (N/A)".

(** An endpoint that answers with a page that is not JSON. *)
Definition service_not_json (url : string) (params : list (string * json))
    : response :=
  Response 200 None.

(** A point layer with a point that has no [gis_name]. *)
Definition points_no_gis_name : list json :=
  [feature {[ "pcode" := JStr "ABC003"; "gis_name" := JStr "East" ]} (point 5 5);
   feature {[ "pcode" := JStr "ABC004" ]} (point 7 7)].

Definition service_no_gis_name (url : string) (params : list (string * json))
    : response :=
  if String.eqb url POLYGON_URL then Response 200 (Some (feature_collection polygons_ABC))
  else Response 200 (Some (feature_collection points_no_gis_name)).

(** Points of which one has no geometry. *)
Definition points_no_geometry : list json :=
  [feature {[ "pcode" := JStr "ABC003"; "gis_name" := JStr "East" ]} (point 5 5);
   JObj {[ "type" := JStr "Feature";
           "properties" := JObj {[ "pcode" := JStr "ABC004" ]} ]}].

(** Points of which one has a position that is no pair of numbers. *)
Definition points_no_number : list json :=
  [feature {[ "pcode" := JStr "ABC003"; "gis_name" := JStr "East" ]} (point 5 5);
   feature {[ "pcode" := JStr "ABC004" ]}
           (JObj {[ "type" := JStr "Point";
                    "coordinates" := JArr [JNull; JNull] ]})].

(** The properties of the first generated polygon, and that polygon as
    the page holds it after the display rename. *)
Definition generated_properties : gmap string json :=
  {[ "pcode" := JStr "ABC003"; "gis_name" := JStr "East";
     "prefixed_gis_name" := JStr "POINT_East";
     "feature_type" := JStr "Generated Polygon" ]}.

Definition generated_feature : json :=
  JObj {[ "type" := JStr "Feature";
          "geometry" := square 5 5 0.01;
          "properties" := JObj generated_properties ]}.

(** Properties that hold a code under both names. *)
Definition both_names : gmap string json :=
  {[ "pcode" := JStr "ABC003"; "site_code" := JStr "old";
     "gis_name" := JStr "East" ]}.

(** The collection of a country without any site, as [process_country]
    returns it. *)
Definition no_site : gmap string json :=
  {[ "type" := JStr "FeatureCollection"; "features" := JArr [];
     "feature_type" := JStr "Polygon" ]}.

(** Widgets: nothing clicked; "Process Country" clicked without a country;
    "Process Country" clicked for ABC. *)
Definition idle : widgets :=
  {| country_code := None; buffer_size_points := 0.01;
     process_clicked := false; selected_label := None;
     selected_features_to_export := []; generate_clicked := false |}.

Definition process_nothing : widgets :=
  {| country_code := None; buffer_size_points := 0.01;
     process_clicked := true; selected_label := None;
     selected_features_to_export := []; generate_clicked := false |}.

Definition process_ABC : widgets :=
  {| country_code := Some "ABC"; buffer_size_points := 0.01;
     process_clicked := true; selected_label := None;
     selected_features_to_export := []; generate_clicked := false |}.

(** What [process_country] logs for a country without any site. *)
Definition no_site_log : list event :=
  [HttpGet POLYGON_URL (query_polygons_params "ABC");
   Print "Successfully fetched 0 official polygons";
   HttpGet POINT_URL (query_points_params repr "ABC" []);
   Print "No points data found"].

End Fixtures.

(** ** Facts about the Python operations *)

Section Python.

Context {A B : Type}.
Implicit Types (f : A → result B) (l : list A) (k : list B).

Lemma mapM_Ok f l k :
  Forall2 (λ x y, f x = Ok y) l k → mapM f l = Ok k.
Proof.
  induction 1 as [|x y l k Hxy _ IH]; [done|].
  cbn. rewrite Hxy. cbn. rewrite IH. done.
Qed.

Lemma mapM_Ok_inv f l k :
  mapM f l = Ok k → Forall2 (λ x y, f x = Ok y) l k.
Proof.
  revert k. induction l as [|x l IH]; intros k; cbn.
  - intros [= <-]. constructor.
  - destruct (f x) as [y|e] eqn:Hx; cbn; [|done].
    destruct (mapM f l) as [k'|e] eqn:Hl; cbn; [|done].
    intros [= <-]. constructor; auto.
Qed.

Lemma mapM_Ok_fmap (g : A → B) f l :
  Forall (λ x, f x = Ok (g x)) l → mapM f l = Ok (g <$> l).
Proof.
  intros H. apply mapM_Ok. induction H; constructor; auto.
Qed.

Lemma mapM_Ok_length f l k : mapM f l = Ok k → length k = length l.
Proof. intros H%mapM_Ok_inv. symmetry. by eapply Forall2_length. Qed.

End Python.

Lemma truthy_dict m : truthy (JObj m) = false ↔ m = ∅.
Proof.
  unfold truthy. rewrite <- map_to_list_empty_iff.
  destruct (map_to_list m); split; congruence.
Qed.

Lemma truthy_insert k v m : truthy (JObj (<[k := v]> m)) = true.
Proof.
  destruct (truthy (JObj (<[k := v]> m))) eqn:H; [done|].
  apply truthy_dict in H. by apply insert_non_empty in H.
Qed.

Lemma truthy_lookup m k v : m !! k = Some v → truthy (JObj m) = true.
Proof.
  intros H. destruct (truthy (JObj m)) eqn:Ht; [done|].
  apply truthy_dict in Ht. subst. by rewrite lookup_empty in H.
Qed.

Lemma collection_features l :
  ({[ "type" := JStr "FeatureCollection"; "features" := JArr l ]}
     : gmap string json) !! "features" = Some (JArr l).
Proof. reflexivity. Qed.

Lemma substring_length n s :
  String.length (String.substring 0 n s) = n `min` String.length s.
Proof.
  revert s. induction n as [|n IH]; intros [|c s]; cbn; auto.
Qed.

#[export] Instance str_le_total : Total str_le.
Proof. intros s t. apply String.leb_total. Qed.

Lemma sorted_set_elem_of l c : c ∈ sorted_set l ↔ c ∈ l.
Proof.
  unfold sorted_set. rewrite merge_sort_Permutation. apply elem_of_remove_dups.
Qed.

Lemma sorted_set_NoDup l : NoDup (sorted_set l).
Proof.
  unfold sorted_set. rewrite merge_sort_Permutation. apply NoDup_remove_dups.
Qed.

Lemma sorted_set_Sorted l : Sorted str_le (sorted_set l).
Proof. apply (Sorted_merge_sort str_le). Qed.

(** ** Facts about the program *)

Arguments POLYGON_URL : simpl never.
Arguments POINT_URL : simpl never.
Arguments list_countries_params : simpl never.
Arguments query_polygons_params : simpl never.
Arguments query_points_params : simpl never.
Arguments where_clause : simpl never.
Arguments raise_for_status : simpl never.
Arguments query_polygons : simpl never.
Arguments query_points : simpl never.
Arguments pretty : simpl never.
Arguments truthy : simpl never.
Arguments for_each_in_place : simpl never.
Arguments extract_site_codes : simpl never.
Arguments gen_polygons : simpl never.
Arguments EXPORT_FOLDER : simpl never.

Ltac step := cbn -[lookup insert delete].

Section Facts.

Context (service : string → list (string * json) → response)
        (json_error_is_request_exception : bool)
        (exn_text : exn → string)
        (py_repr : json → string)
        (point_buffer : json → float → result json).

#[local] Abbreviation list_countries' :=
  (list_countries service json_error_is_request_exception exn_text).
#[local] Abbreviation query_polygons' :=
  (query_polygons service json_error_is_request_exception exn_text).
#[local] Abbreviation query_points' :=
  (query_points service json_error_is_request_exception exn_text py_repr).
#[local] Abbreviation process_country' :=
  (process_country service json_error_is_request_exception exn_text py_repr
                   point_buffer).

Lemma raise_for_status_ok status body :
  ok_status status → raise_for_status (Response status body) = Ok tt.
Proof.
  unfold ok_status, raise_for_status. intros H.
  destruct (400 <=? status)%Z eqn:H1; [|done].
  destruct (status <? 600)%Z eqn:H2; [|done]. lia.
Qed.

Lemma raise_for_status_fails status body :
  ¬ ok_status status →
  raise_for_status (Response status body) = Raise (HTTPError status).
Proof.
  unfold ok_status, raise_for_status. intros H.
  destruct (400 <=? status)%Z eqn:H1; [|lia].
  destruct (status <? 600)%Z eqn:H2; [|lia]. done.
Qed.

Lemma site_code_prefix_site_feature code f :
  site_feature code f →
  site_code_prefix f = Ok (JStr (String.substring 0 3 code)).
Proof.
  intros (p & (m & -> & Hm) & Hp). unfold site_code_prefix. cbn.
  rewrite Hm. cbn. rewrite Hp. done.
Qed.

(** *** The client on a failed request *)

Lemma list_countries_request_fails e :
  request_fails service POLYGON_URL list_countries_params e →
  list_countries' =
    ([HttpGet POLYGON_URL list_countries_params;
      StError ("Failed to fetch data: " +:+ exn_text e)], Ok []).
Proof.
  unfold list_countries, session_get.
  intros [[-> ->]|(status & body & -> & Hs & ->)]; [done|].
  cbn. by rewrite raise_for_status_fails.
Qed.

Lemma query_polygons_request_fails cc e :
  request_fails service POLYGON_URL (query_polygons_params cc) e →
  query_polygons' cc =
    ([HttpGet POLYGON_URL (query_polygons_params cc);
      StError ("Failed to fetch data: " +:+ exn_text e)], Ok (JObj ∅)).
Proof.
  unfold query_polygons, session_get.
  intros [[-> ->]|(status & body & -> & Hs & ->)]; [done|].
  cbn. by rewrite raise_for_status_fails.
Qed.

Lemma query_points_request_fails cc codes e :
  request_fails service POINT_URL (query_points_params py_repr cc codes) e →
  query_points' cc codes =
    ([HttpGet POINT_URL (query_points_params py_repr cc codes);
      Print ("Failed to fetch data: " +:+ exn_text e)], Ok (JObj ∅)).
Proof.
  unfold query_points, session_get.
  intros [[-> ->]|(status & body & -> & Hs & ->)]; [done|].
  cbn. by rewrite raise_for_status_fails.
Qed.

(** *** list_countries *)

Lemma list_countries_returns status data items codes :
  service POLYGON_URL list_countries_params = Response status (Some (JObj data)) →
  ok_status status →
  default (JArr []) (data !! "features") = JArr items →
  Forall2 site_feature codes items →
  list_countries' =
    ([HttpGet POLYGON_URL list_countries_params],
     Ok (sorted_set (String.substring 0 3 <$> codes))).
Proof.
  intros Hservice Hstatus Hfeatures Hitems.
  unfold list_countries, session_get. cbv zeta. rewrite Hservice. cbn.
  rewrite raise_for_status_ok by done. cbn. rewrite Hfeatures. cbn.
  rewrite (mapM_Ok _ items ((λ s, JStr (String.substring 0 3 s)) <$> codes)).
  2:{ clear -Hitems. induction Hitems; constructor; auto.
      by apply site_code_prefix_site_feature. }
  cbn.
  rewrite (mapM_Ok _ _ (String.substring 0 3 <$> codes)); [done|].
  clear. induction codes; constructor; auto.
Qed.

(** C7 (amended): on a well-formed answer, [list_countries] returns the
    sorted list of the distinct prefixes of the site codes, a prefix being
    the first three characters of a site code or the whole of a shorter
    one: the list has no duplicate, is in ascending order, holds exactly
    the prefixes, each of length at most 3, and of length exactly 3 when
    every site code has at least three characters. *)
Theorem list_countries_distinct_sorted_prefixes status data items codes :
  service POLYGON_URL list_countries_params = Response status (Some (JObj data)) →
  ok_status status →
  default (JArr []) (data !! "features") = JArr items →
  Forall2 site_feature codes items →
  ∃ countries,
    list_countries' = ([HttpGet POLYGON_URL list_countries_params], Ok countries)
    ∧ NoDup countries
    ∧ Sorted str_le countries
    ∧ (∀ c, c ∈ countries ↔ ∃ s, s ∈ codes ∧ c = String.substring 0 3 s)
    ∧ Forall (λ c, String.length c ≤ 3) countries
    ∧ (Forall (λ s, 3 ≤ String.length s) codes →
       Forall (λ c, String.length c = 3) countries).
Proof.
  intros Hservice Hstatus Hfeatures Hitems.
  exists (sorted_set (String.substring 0 3 <$> codes)).
  assert (Hmem : ∀ c, c ∈ sorted_set (String.substring 0 3 <$> codes)
                 ↔ ∃ s, s ∈ codes ∧ c = String.substring 0 3 s).
  { intros c. rewrite sorted_set_elem_of, list_elem_of_fmap.
    split; intros (s & ? & ?); eauto. }
  split_and!.
  - by eapply list_countries_returns.
  - apply sorted_set_NoDup.
  - apply sorted_set_Sorted.
  - done.
  - apply Forall_forall. intros c (s & _ & ->)%Hmem.
    rewrite substring_length. lia.
  - intros Hlong. apply Forall_forall. intros c (s & Hs & ->)%Hmem.
    rewrite substring_length.
    rewrite Forall_forall in Hlong. specialize (Hlong s Hs). lia.
Qed.


(** *** The client on an answer *)

Lemma query_polygons_returns cc status data :
  service POLYGON_URL (query_polygons_params cc) = Response status (Some (JObj data)) →
  ok_status status →
  query_polygons' cc =
    ([HttpGet POLYGON_URL (query_polygons_params cc)],
     Ok (JObj (<["feature_type" := JStr "Polygon"]> data))).
Proof.
  intros Hservice Hstatus.
  unfold query_polygons, session_get. cbv zeta. rewrite Hservice. cbn.
  by rewrite raise_for_status_ok.
Qed.

Lemma query_points_returns cc codes status data points points' :
  service POINT_URL (query_points_params py_repr cc codes)
    = Response status (Some (JObj data)) →
  ok_status status →
  data !! "features" = Some (JArr points) →
  Forall2 (λ pt pt', add_prefixed_gis_name py_repr pt = Ok pt') points points' →
  query_points' cc codes =
    ([HttpGet POINT_URL (query_points_params py_repr cc codes)],
     Ok (JObj (<["feature_type" := JStr "Point"]>
                (<["features" := JArr points']> data)))).
Proof.
  intros Hservice Hstatus Hfeatures Hpoints.
  unfold query_points, session_get. cbv zeta. rewrite Hservice. cbn.
  rewrite raise_for_status_ok by done. cbn. rewrite Hfeatures. cbn.
  destruct Hpoints as [|pt pt' points points' Hpt Hpoints];
    unfold truthy, for_each_in_place.
  - cbn. by rewrite (insert_id data "features" (JArr [])).
  - cbn. rewrite Hpt. cbn. by rewrite (mapM_Ok _ _ _ Hpoints).
Qed.

(** *** process_country *)

Lemma tag_feature_with_feature_type tag p f :
  feature_with p f → tag_feature tag f = Ok (with_feature_type tag f).
Proof.
  intros (m & -> & Hm). unfold tag_feature. cbn. by rewrite Hm.
Qed.

Lemma has_site_code_with_feature_type tag code f :
  has_site_code code f → has_site_code code (with_feature_type tag f).
Proof.
  intros (p & (m & -> & Hm) & Hp). cbn. rewrite Hm.
  exists (<["feature_type" := JStr tag]> p). split.
  - eexists. split; [done|]. by rewrite lookup_insert_eq.
  - by rewrite lookup_insert_ne.
Qed.

Lemma extract_site_codes_returns data features codes :
  default (JArr []) (data !! "features") = JArr features →
  Forall2 has_site_code codes features →
  extract_site_codes (JObj data) = Ok codes.
Proof.
  intros Hfeatures Hcodes. unfold extract_site_codes. cbn.
  rewrite Hfeatures. cbn. apply mapM_Ok.
  clear Hfeatures. induction Hcodes as [|c f ? ? Hc]; constructor; auto.
  destruct Hc as (p & (m & -> & Hm) & Hp). cbn. rewrite Hm. cbn.
  by rewrite Hp.
Qed.

(** The request failed: "no data", no result, and the point layer is not
    queried. *)
Lemma process_country_no_data cc r e :
  request_fails service POLYGON_URL (query_polygons_params cc) e →
  process_country' cc r =
    ([HttpGet POLYGON_URL (query_polygons_params cc);
      StError ("Failed to fetch data: " +:+ exn_text e);
      Print "No data found for the country"], Ok None).
Proof.
  intros Hfail. unfold process_country.
  by rewrite (query_polygons_request_fails _ _ Hfail).
Qed.


Lemma for_each_tag tag l :
  Forall (λ f, ∃ p, feature_with p f) l →
  for_each_in_place (tag_feature tag) (JArr l)
    = Ok (JArr (with_feature_type tag <$> l)).
Proof.
  intros H. unfold for_each_in_place.
  rewrite (mapM_Ok_fmap (with_feature_type tag)); [done|].
  eapply Forall_impl; [done|]. intros f [p Hp].
  by eapply tag_feature_with_feature_type.
Qed.

Lemma has_site_code_feature codes polys :
  Forall2 has_site_code codes polys →
  Forall (λ f, ∃ p, feature_with p f) polys.
Proof. induction 1 as [|c f ? ? (p & Hp & _)]; constructor; eauto. Qed.

(** *** gen_polygons *)

Lemma buffered_feature_returns r p coords f g :
  point_feature p coords f →
  point_buffer coords r = Ok g →
  buffered_feature point_buffer r f =
    Ok (JObj {[ "type" := JStr "Feature"; "geometry" := g; "properties" := p ]}).
Proof.
  intros (m & geo & -> & Hp & Hg & _ & Hc & _) Hb.
  unfold buffered_feature. cbn. rewrite Hg. cbn. rewrite Hc. cbn.
  rewrite Hb. cbn. by rewrite Hp.
Qed.

Lemma gen_polygons_returns data P r out :
  default (JArr []) (data !! "features") = JArr P →
  Forall2 (λ f o, buffered_feature point_buffer r f = Ok o) P out →
  gen_polygons point_buffer (JObj data) r = Ok (feature_collection out).
Proof.
  intros Hf Hout. unfold gen_polygons. cbn. rewrite Hf. cbn.
  rewrite (mapM_Ok _ _ _ Hout). cbn.
  rewrite bool_decide_true; [done|]. symmetry. by eapply Forall2_length.
Qed.

(** C2: for a collection [P] of point features and a radius [r], positive
    or not, at which shapely buffers the position of each feature of [P],
    [gen_polygons] returns a feature collection with as many features as
    [P], and its feature at an index [i] holds the buffer of the position
    of the feature of [P] at [i] and the properties mapping of that
    feature, unchanged.  Where shapely raises instead, at an infinite
    radius or a coordinate outside the floats, [gen_polygons] raises with
    it. *)
Theorem gen_polygons_same_count_order_properties data P r :
  default (JArr []) (data !! "features") = JArr P →
  Forall (λ f, ∃ p g, buffered_point point_buffer r p g f) P →
  ∃ out,
    gen_polygons point_buffer (JObj data) r = Ok (feature_collection out)
    ∧ length out = length P
    ∧ ∀ i f, P !! i = Some f →
        ∃ o p g,
          out !! i = Some o
          ∧ buffered_point point_buffer r p g f
          ∧ o = JObj {[ "type" := JStr "Feature"; "geometry" := g;
                        "properties" := p ]}
          ∧ getitem o "properties" = getitem f "properties".
Proof.
  intros Hfeatures HP.
  assert (∃ out, Forall2 (λ f o, ∃ p g,
            buffered_point point_buffer r p g f
            ∧ o = JObj {[ "type" := JStr "Feature"; "geometry" := g;
                          "properties" := p ]}) P out) as [out Hout].
  { clear Hfeatures. induction HP as [|f P (p & g & Hf) _ [out IH]].
    - exists []. constructor.
    - eexists (_ :: out). constructor; [|done]. by exists p, g. }
  exists out. split_and!.
  - eapply gen_polygons_returns; [done|].
    eapply Forall2_impl; [done|].
    intros f o (p & g & (coords & Hf & Hg) & ->).
    by eapply buffered_feature_returns.
  - symmetry. by eapply Forall2_length.
  - intros i f Hi.
    destruct (Forall2_lookup_l _ _ _ _ _ Hout Hi)
      as (o & Ho & p & g & Hf & ->).
    eexists _, p, g. split_and!; try done.
    destruct Hf as (coords & (m & geo & -> & Hp & _) & _). cbn.
    by rewrite Hp.
Qed.

(** *** process_country, with an answer of the polygon layer *)

Lemma generated_from_buffered r pt gen :
  generated_from point_buffer r pt gen →
  ∃ buf, buffered_feature point_buffer r pt = Ok buf
    ∧ (∃ p, feature_with p buf)
    ∧ with_feature_type "Generated Polygon" buf = gen.
Proof.
  intros (p & coords & g & Hpt & Hb & ->).
  eexists. split; [by eapply buffered_feature_returns|].
  split; [|done]. exists p. eexists. split; done.
Qed.

Lemma generated_from_list r pts gens :
  Forall2 (generated_from point_buffer r) pts gens →
  ∃ bufs, Forall2 (λ f o, buffered_feature point_buffer r f = Ok o) pts bufs
    ∧ Forall (λ f, ∃ p, feature_with p f) bufs
    ∧ with_feature_type "Generated Polygon" <$> bufs = gens.
Proof.
  induction 1 as [|pt gen pts gens Hgen _ (bufs & Hbs & Hps & <-)].
  - exists []. by repeat constructor.
  - apply generated_from_buffered in Hgen as (buf & Hb & Hp & <-).
    exists (buf :: bufs). by repeat constructor.
Qed.

(** What [process_country] does up to the query of the points. *)
Ltac process_country_head Hpoly Hfeat Hcodes :=
  unfold process_country; rewrite Hpoly; step;
  rewrite (truthy_lookup _ _ _ Hfeat); step; rewrite Hfeat; step;
  rewrite for_each_tag by (by eapply has_site_code_feature); step;
  erewrite extract_site_codes_returns;
    [| by rewrite lookup_insert_eq
     | apply Forall2_fmap_r; eapply Forall2_impl; [exact Hcodes|];
       intros; by apply has_site_code_with_feature_type ];
  step.

(** C8: when the fetch of the official polygons succeeds and the fetch of
    the points yields a result that is empty or whose features are empty
    or missing, [process_country] returns the official polygons alone,
    each tagged as an official polygon: a result, and not an empty one. *)
Theorem process_country_official_polygons_alone
    cc r log1 m polys codes log2 pd :
  query_polygons' cc = (log1, Ok (JObj m)) →
  m !! "features" = Some (JArr polys) →
  Forall2 has_site_code codes polys →
  query_points' cc codes = (log2, Ok (JObj pd)) →
  truthy (default JNull (pd !! "features")) = false →
  let official :=
    JObj (<["features" :=
              JArr (with_feature_type "Official Polygon" <$> polys)]> m) in
  process_country' cc r =
    (log1 ++
     [Print ("Successfully fetched " +:+ pretty (length polys) +:+
             " official polygons")] ++
     log2 ++ [Print "No points data found"],
     Ok (Some official))
  ∧ truthy official = true.
Proof.
  intros Hpoly Hfeat Hcodes Hpts Hempty official. split.
  - process_country_head Hpoly Hfeat Hcodes.
    rewrite Hpts. step. rewrite Hempty. by destruct (truthy (JObj pd)).
  - apply truthy_insert.
Qed.

(** C9: when both fetches yield features, [process_country] returns one
    collection: the official polygons in the order of their fetch, each
    tagged as an official polygon, followed by the polygons generated from
    the points in the order of their fetch, each tagged as a generated
    polygon. *)
Theorem process_country_official_then_generated
    cc r log1 m polys codes log2 pd pts gens :
  query_polygons' cc = (log1, Ok (JObj m)) →
  m !! "features" = Some (JArr polys) →
  Forall2 has_site_code codes polys →
  query_points' cc codes = (log2, Ok (JObj pd)) →
  pd !! "features" = Some (JArr pts) →
  pts ≠ [] →
  Forall2 (generated_from point_buffer r) pts gens →
  process_country' cc r =
    (log1 ++
     [Print ("Successfully fetched " +:+ pretty (length polys) +:+
             " official polygons")] ++
     log2 ++
     [Print ("Successfully fetched " +:+ pretty (length pts) +:+ " points")],
     Ok (Some (feature_collection
                 ((with_feature_type "Official Polygon" <$> polys) ++ gens))))
  ∧ Forall (λ f, ∃ p, feature_with p f
                 ∧ p !! "feature_type" = Some (JStr "Official Polygon"))
           (with_feature_type "Official Polygon" <$> polys)
  ∧ Forall (λ f, ∃ p, feature_with p f
                 ∧ p !! "feature_type" = Some (JStr "Generated Polygon"))
           gens.
Proof.
  intros Hpoly Hfeat Hcodes Hpts Hpf Hne Hgen. split_and!.
  - process_country_head Hpoly Hfeat Hcodes.
    rewrite Hpts. step. rewrite (truthy_lookup _ _ _ Hpf). step.
    rewrite Hpf. step.
    assert (truthy (JArr pts) = true) as -> by by destruct pts.
    step.
    destruct (generated_from_list _ _ _ Hgen) as (bufs & Hbufs & Hfeats & <-).
    erewrite gen_polygons_returns; [| by rewrite Hpf | done].
    unfold feature_collection at 1. step.
    rewrite collection_features. step.
    rewrite for_each_tag by done. step.
    rewrite !lookup_insert_eq. step.
    assert (truthy (JArr (with_feature_type "Generated Polygon" <$> bufs))
            = true) as ->.
    { apply Forall2_length in Hbufs. by destruct pts, bufs. }
    by step.
  - apply Forall_fmap. apply has_site_code_feature in Hcodes.
    eapply Forall_impl; [done|]. intros f (p & m' & -> & Hm'). cbn.
    rewrite Hm'. eexists. split.
    + eexists. split; [done|]. by rewrite lookup_insert_eq.
    + by rewrite lookup_insert_eq.
  - clear -Hgen. induction Hgen as [|pt gen ? ? (p & ? & g & _ & _ & ->)];
      constructor; [|done].
    eexists. split.
    + eexists. split; [done|]. reflexivity.
    + by rewrite lookup_insert_eq.
Qed.


(** *** The names of the properties *)

Lemma lookup_rename_key old new p k :
  old ≠ new →
  rename_key old new p !! k =
    if decide (k = new) then
      match p !! old with Some x => Some x | None => p !! new end
    else if decide (k = old) then None else p !! k.
Proof.
  intros Hne. unfold rename_key.
  destruct (p !! old) as [x|] eqn:Hold.
  - rewrite lookup_insert. repeat case_decide; simplify_eq; try done.
    + by rewrite lookup_delete_eq.
    + by rewrite lookup_delete_ne.
  - repeat case_decide; simplify_eq; done.
Qed.





Lemma rename_property_with_properties old new p f :
  feature_with p f →
  rename_property old new f = Ok (with_properties (rename_key old new p) f).
Proof.
  intros (m & -> & Hm). unfold rename_property, rename_key. cbn.
  rewrite Hm. cbn. destruct (p !! old) as [x|] eqn:Hold; cbn.
  - done.
  - by rewrite insert_id.
Qed.

Lemma feature_with_with_properties p p' f :
  feature_with p f → feature_with p' (with_properties p' f).
Proof.
  intros (m & -> & Hm). eexists. split; [done|]. by rewrite lookup_insert_eq.
Qed.

Lemma with_properties_twice p p' f :
  with_properties p' (with_properties p f) = with_properties p' f.
Proof. destruct f; try done. cbn. by rewrite insert_insert_eq. Qed.



Lemma display_rename_with_properties p f :
  feature_with p f →
  display_rename f = Ok (with_properties (display_names p) f).
Proof.
  intros Hf. unfold display_rename.
  rewrite (rename_property_with_properties _ _ p) by done. cbn.
  erewrite rename_property_with_properties
    by by eapply feature_with_with_properties.
  by rewrite with_properties_twice.
Qed.

Lemma export_rename_with_properties p f :
  feature_with p f →
  export_rename f = Ok (with_properties (export_names p) f).
Proof.
  intros Hf. unfold export_rename.
  rewrite (rename_property_with_properties _ _ p) by done. cbn.
  erewrite rename_property_with_properties
    by by eapply feature_with_with_properties.
  by rewrite with_properties_twice.
Qed.



(** *** Selection and export *)

Lemma filtered_features_kept fo fl sel :
  (filtered_features fo fl sel).*2 = kept fo fl sel.
Proof.
  unfold filtered_features, kept. generalize (zip fo fl). intros l.
  enough (∀ g : nat → nat,
    ((λ x : nat * (json * string), (x.1, x.2.1)) <$>
       filter (λ x, x.2.2 ∈ sel) (imap (λ i x, (g i, x)) l)).*2
    = (filter (λ x, x.2 ∈ sel) l).*1) as H by apply (H id).
  induction l as [|[f lab] l IH]; intros g; [done|].
  rewrite imap_cons, !filter_cons. cbn.
  case_decide; cbn; [f_equal|]; apply (IH (g ∘ S)).
Qed.

Lemma kept_elem_of fo fl sel i f l :
  fo !! i = Some f → fl !! i = Some l → l ∈ sel → f ∈ kept fo fl sel.
Proof.
  intros Hf Hl Hsel. unfold kept. apply list_elem_of_fmap. exists (f, l).
  split; [done|]. apply list_elem_of_filter. split; [done|].
  apply list_elem_of_lookup. exists i. apply lookup_zip_with_Some. eauto.
Qed.

Lemma kept_subseteq fo fl sel : kept fo fl sel ⊆ fo.
Proof.
  intros f ([f' l] & -> & [_ Hin]%list_elem_of_filter)%list_elem_of_fmap.
  apply list_elem_of_lookup in Hin as [i Hi].
  apply lookup_zip_with_Some in Hi as (? & ? & [= <- <-] & ? & ?).
  by eapply list_elem_of_lookup_2.
Qed.

Lemma kept_none fo fl l :
  (∀ j, fl !! j ≠ Some l) → kept fo fl [l] = [].
Proof.
  intros Hnone. unfold kept.
  destruct (filter _ (zip fo fl)) as [|[f l'] rest] eqn:Hfilter; [done|].
  assert ((f, l') ∈ filter (λ x, x.2 ∈ [l]) (zip fo fl)) as Hin
    by (rewrite Hfilter; left).
  apply list_elem_of_filter in Hin as [Hl' Hin]. cbn in Hl'.
  apply list_elem_of_singleton in Hl' as ->.
  apply list_elem_of_lookup in Hin as [i Hi].
  apply lookup_zip_with_Some in Hi as (? & ? & [= <- <-] & ? & ?).
  by edestruct Hnone.
Qed.

Lemma kept_unique fo fl i f l :
  fo !! i = Some f → fl !! i = Some l → (∀ j, fl !! j = Some l → j = i) →
  kept fo fl [l] = [f].
Proof.
  revert fl i. induction fo as [|f0 fo IH]; intros [|l0 fl] [|i] Hf Hl Huniq;
    try done; cbn in Hf, Hl; unfold kept;
    change (zip (f0 :: fo) (l0 :: fl)) with ((f0, l0) :: zip fo fl).
  - injection Hf as ->. injection Hl as ->.
    rewrite filter_cons_True by (cbn; by apply list_elem_of_singleton).
    cbn. f_equal. apply (kept_none fo fl l).
    intros j Hj. by specialize (Huniq (S j) Hj).
  - rewrite filter_cons_False.
    + apply (IH fl i); try done. intros j Hj. specialize (Huniq (S j) Hj). lia.
    + cbn. intros ->%list_elem_of_singleton. by specialize (Huniq 0 eq_refl).
Qed.

Lemma filter_two_matches {X} (P : X → Prop) `{∀ x, Decision (P x)} (l : list X) i j x y :
  i < j → l !! i = Some x → l !! j = Some y → P x → P y →
  2 ≤ length (filter P l).
Proof.
  revert i j. induction l as [|a l IH]; intros [|i] [|j] Hij Hx Hy Px Py;
    try done; try lia; cbn in Hx, Hy.
  - injection Hx as ->. rewrite filter_cons_True by done. cbn.
    assert (y ∈ filter P l) as Hin.
    { apply list_elem_of_filter. split; [done|]. by eapply list_elem_of_lookup_2. }
    destruct (filter P l); [by apply elem_of_nil in Hin|cbn; lia].
  - assert (2 ≤ length (filter P l)) by (eapply (IH i j); eauto; lia).
    rewrite filter_cons. case_decide; cbn; lia.
Qed.

Lemma kept_two fo fl sel i j l :
  length fo = length fl → i ≠ j →
  fl !! i = Some l → fl !! j = Some l → l ∈ sel →
  2 ≤ length (kept fo fl sel).
Proof.
  intros Hlen Hij Hi Hj Hsel. unfold kept. rewrite length_fmap.
  destruct (lookup_lt_is_Some_2 fo i) as [fi Hfi].
  { rewrite Hlen. by eapply lookup_lt_Some. }
  destruct (lookup_lt_is_Some_2 fo j) as [fj Hfj].
  { rewrite Hlen. by eapply lookup_lt_Some. }
  assert (zip fo fl !! i = Some (fi, l)) by (apply lookup_zip_with_Some; eauto).
  assert (zip fo fl !! j = Some (fj, l)) by (apply lookup_zip_with_Some; eauto).
  destruct (decide (i < j)).
  - by eapply (filter_two_matches _ _ i j).
  - eapply (filter_two_matches _ _ j i); eauto. lia.
Qed.

Lemma export_block_nothing_selected cc fo fl :
  export_block cc fo fl [] =
    ([StError "No feature selected. Please select at least one feature."],
     Ok fo).
Proof. done. Qed.

Lemma export_block_events cc fo fl sel renamed :
  sel ≠ [] →
  Forall2 (λ f f', export_rename f = Ok f') (kept fo fl sel) renamed →
  events (export_block cc fo fl sel) =
    [StSuccess ("Exported " +:+ pretty (length renamed) +:+
                " features to " +:+ export_path cc);
     WriteFile (export_path cc) (feature_collection renamed);
     DownloadButton (export_name cc) (feature_collection renamed)]
  ∧ ∃ fo', outcome (export_block cc fo fl sel) = Ok fo'.
Proof.
  intros Hsel Hrenamed. destruct sel as [|s sel]; [done|].
  unfold export_block. rewrite filtered_features_kept.
  rewrite (mapM_Ok _ _ _ Hrenamed). split; [done|]. by eexists.
Qed.

Lemma select_feature_first fo fl l i f :
  fo !! i = Some f → fl !! i = Some l → (∀ k, k < i → fl !! k ≠ Some l) →
  select_feature fo fl (Some l) = Ok f.
Proof.
  unfold select_feature.
  revert fl i. induction fo as [|f0 fo IH]; intros [|l0 fl] [|i] Hf Hl Hfirst;
    try done; cbn in Hf, Hl;
    change (zip (f0 :: fo) (l0 :: fl)) with ((f0, l0) :: zip fo fl).
  - injection Hf as ->. injection Hl as ->. by rewrite filter_cons_True.
  - rewrite filter_cons_False.
    + apply (IH fl i); try done. intros k Hk. apply (Hfirst (S k)). lia.
    + cbn. intros [= ->]. by apply (Hfirst 0); [lia|].
Qed.

Lemma lookup_export_names p k :
  export_names p !! k =
    if decide (k = "gis_name") then
      match p !! "name" with Some x => Some x | None => p !! "gis_name" end
    else if decide (k = "name") then None
    else if decide (k = "pcode") then
      match p !! "site_code" with Some x => Some x | None => p !! "pcode" end
    else if decide (k = "site_code") then None
    else p !! k.
Proof.
  unfold export_names. rewrite !lookup_rename_key by done.
  repeat case_decide; simplify_eq; done.
Qed.

Lemma feature_label_with_properties p f :
  feature_with p f →
  feature_label py_repr f =
    Ok (py_str py_repr (default (JStr "N/A") (p !! "site_code")) +:+ " - " +:+
        py_str py_repr (default (JStr "N/A") (p !! "name")) +:+ " (" +:+
        py_str py_repr (default (JStr "N/A") (p !! "feature_type")) +:+ ")").
Proof. intros (m & -> & Hm). unfold feature_label. cbn. by rewrite Hm. Qed.

(** C6 (amended): the export with an empty selection shows an error and
    writes no file; the export with one selected label that belongs to
    exactly one feature writes a document with exactly that feature, whose
    properties hold neither [site_code] nor [name] and hold under [pcode]
    and [gis_name] what they held under [site_code] and [name]. *)
Theorem export_nothing_or_the_one cc fo fl l i f p :
  fo !! i = Some f → fl !! i = Some l → (∀ j, fl !! j = Some l → j = i) →
  feature_with p f →
  let exported := with_properties (export_names p) f in
  (export_block cc fo fl [] =
     ([StError "No feature selected. Please select at least one feature."],
      Ok fo)
   ∧ ∀ path document, WriteFile path document ∉ events (export_block cc fo fl []))
  ∧ events (export_block cc fo fl [l]) =
      [StSuccess ("Exported 1 features to " +:+ export_path cc);
       WriteFile (export_path cc) (feature_collection [exported]);
       DownloadButton (export_name cc) (feature_collection [exported])]
  ∧ feature_with (export_names p) exported
  ∧ export_names p !! "site_code" = None
  ∧ export_names p !! "name" = None
  ∧ export_names p !! "pcode" =
      match p !! "site_code" with Some x => Some x | None => p !! "pcode" end
  ∧ export_names p !! "gis_name" =
      match p !! "name" with Some x => Some x | None => p !! "gis_name" end.
Proof.
  intros Hf Hl Huniq Hp exported. split_and!.
  - done.
  - intros path document [= ]%list_elem_of_singleton.
  - apply (export_block_events cc fo fl [l] [exported]); [done|].
    rewrite (kept_unique fo fl i f l) by done.
    repeat constructor. by apply export_rename_with_properties.
  - by eapply feature_with_with_properties.
  - by rewrite lookup_export_names.
  - by rewrite lookup_export_names.
  - by rewrite lookup_export_names.
  - by rewrite lookup_export_names.
Qed.

(** C10: the viewer resolves a label to the first feature that carries
    it; the export writes, renamed and in order, every feature whose label
    is among the selected ones, so two features that share a selected
    label are both in the document. *)
Theorem features_go_by_label cc fo fl sel :
  length fo = length fl →
  Forall (λ f, ∃ p, feature_with p f) fo →
  sel ≠ [] →
  (∀ l i f, fo !! i = Some f → fl !! i = Some l →
     (∀ k, k < i → fl !! k ≠ Some l) →
     select_feature fo fl (Some l) = Ok f)
  ∧ ∃ renamed,
      events (export_block cc fo fl sel) =
        [StSuccess ("Exported " +:+ pretty (length renamed) +:+
                    " features to " +:+ export_path cc);
         WriteFile (export_path cc) (feature_collection renamed);
         DownloadButton (export_name cc) (feature_collection renamed)]
      ∧ Forall2 (λ f f', export_rename f = Ok f')
                (filter (λ x, x.2 ∈ sel) (zip fo fl)).*1 renamed
      ∧ (∀ l i f, fo !! i = Some f → fl !! i = Some l → l ∈ sel →
           ∃ f', export_rename f = Ok f' ∧ f' ∈ renamed)
      ∧ (∀ l i j, i ≠ j → fl !! i = Some l → fl !! j = Some l → l ∈ sel →
           2 ≤ length renamed).
Proof.
  intros Hlen Hfo Hsel. split; [intros; by eapply select_feature_first|].
  assert (∃ renamed, Forall2 (λ f f', export_rename f = Ok f')
            (kept fo fl sel) renamed) as [renamed Hrenamed].
  { assert (Forall (λ f, ∃ p, feature_with p f) (kept fo fl sel)) as Hkept.
    { rewrite Forall_forall in Hfo. apply Forall_forall. intros f Hin.
      by apply Hfo, (kept_subseteq fo fl sel). }
    induction Hkept as [|f ? [p Hp] _ [renamed IH]].
    - exists []. constructor.
    - eexists (_ :: renamed). constructor; [|done].
      by apply export_rename_with_properties. }
  exists renamed. split_and!.
  - by apply export_block_events.
  - done.
  - intros l i f Hf Hl Hin.
    pose proof (kept_elem_of fo fl sel i f l Hf Hl Hin) as [k Hk]%list_elem_of_lookup.
    destruct (Forall2_lookup_l _ _ _ _ _ Hrenamed Hk) as (f' & Hf' & Hren).
    exists f'. split; [done|]. by eapply list_elem_of_lookup_2.
  - intros l i j Hij Hi Hj Hin.
    rewrite <- (Forall2_length _ _ _ Hrenamed). by eapply kept_two.
Qed.

End Facts.

(** ** The filter of the point query with nothing to exclude *)

Lemma run_ends_with_empty_list st ts :
  Sql.run st (ts ++ [Sql.LParen; Sql.RParen]) = None.
Proof.
  revert st. induction ts as [|t ts IH]; intros st; cbn.
  - by destruct st.
  - destruct (Sql.step st t); cbn; [apply IH|done].
Qed.

Lemma lex_ends_with_empty_list m s :
  Sql.lex m (s +:+ "()") = None
  ∨ ∃ ts, Sql.lex m (s +:+ "()") = Some (ts ++ [Sql.LParen; Sql.RParen]).
Proof.
  revert m. induction s as [|c s IH]; intros m.
  - destruct m; cbn.
    + right. by exists [].
    + right. by exists [Sql.Word acc].
    + by left.
    + right. by exists [Sql.Literal acc].
  - assert (∀ (o : option (list Sql.token)),
        (o = None ∨ ∃ ts, o = Some (ts ++ [Sql.LParen; Sql.RParen])) →
        ∀ t, (t ::.) <$> o = None
             ∨ ∃ ts, (t ::.) <$> o = Some (ts ++ [Sql.LParen; Sql.RParen]))
      as Hmap.
    { intros o [->|[ts ->]] t; [by left|]. right. by exists (t :: ts). }
    change (String c s +:+ "()") with (String c (s +:+ "()")).
    cbn [Sql.lex].
    repeat (case_match; try (by left); try apply IH; try (apply Hmap; try apply IH)).
Qed.

Lemma append_assoc (s t u : string) : (s +:+ t) +:+ u = s +:+ (t +:+ u).
Proof.
  induction s as [|c s IH]; [done|].
  change (String c ((s +:+ t) +:+ u) = String c (s +:+ (t +:+ u))).
  by rewrite IH.
Qed.

Lemma where_clause_nothing_excluded py_repr country_code :
  where_clause py_repr country_code [] =
    ("iso3='" +:+ country_code +:+ "' AND pcode NOT IN ") +:+ "()".
Proof.
  unfold where_clause. cbn [fmap list_fmap join].
  rewrite (append_assoc "iso3='").
  rewrite (append_assoc country_code).
  reflexivity.
Qed.
(** C4 (what the code does): with nothing to exclude, [query_points]
    sends a filter that ends in [pcode NOT IN ()]: the clause is kept, its
    list of values is empty, and the filter is not a well-formed search
    condition, whatever the country code. *)
Theorem where_clause_empty_exclusion_malformed py_repr country_code :
  where_clause py_repr country_code [] =
    "iso3='" +:+ country_code +:+ "' AND pcode NOT IN ()"
  ∧ Sql.well_formed (where_clause py_repr country_code []) = false.
Proof.
  split.
  - unfold where_clause. reflexivity.
  - rewrite where_clause_nothing_excluded. unfold Sql.well_formed.
    destruct (lex_ends_with_empty_list Sql.Idle
                ("iso3='" +:+ country_code +:+ "' AND pcode NOT IN "))
      as [H|[ts H]].
    + rewrite H. done.
    + rewrite H. cbn [mbind option_bind]. rewrite run_ends_with_empty_list. done.
Qed.
(** The recogniser takes the filters that the program sends otherwise. *)
Example where_clause_two_excluded :
  where_clause Fixtures.repr "ABC" [JStr "ABC001"; JStr "ABC002"]
    = "iso3='ABC' AND pcode NOT IN ('ABC001','ABC002')"
  ∧ Sql.well_formed
      (where_clause Fixtures.repr "ABC" [JStr "ABC001"; JStr "ABC002"]) = true
  ∧ Sql.well_formed "iso3='ABC'" = true
  ∧ Sql.well_formed "site_code LIKE 'ABC%'" = true
  ∧ Sql.well_formed "1=1" = true
  ∧ Sql.well_formed "iso3='ABC' AND" = false
  ∧ Sql.well_formed "iso3='ABC' AND pcode NOT IN ('ABC001',)" = false.
Proof. vm_compute. repeat split. Qed.

(** ** More facts about the program *)

Section Coverage.

Context (service : string → list (string * json) → response)
        (json_error_is_request_exception : bool)
        (exn_text : exn → string)
        (py_repr : json → string)
        (point_buffer : json → float → result json).

#[local] Abbreviation list_countries' :=
  (list_countries service json_error_is_request_exception exn_text).
#[local] Abbreviation query_polygons' :=
  (query_polygons service json_error_is_request_exception exn_text).
#[local] Abbreviation query_points' :=
  (query_points service json_error_is_request_exception exn_text py_repr).
#[local] Abbreviation process_country' :=
  (process_country service json_error_is_request_exception exn_text py_repr
                   point_buffer).
#[local] Abbreviation fetch_fails' :=
  (fetch_fails service json_error_is_request_exception).

(** *** The monads *)

Lemma events_bind {A B} (m : M A) (f : A → M B) :
  ∃ rest, events (m ≫= f) = events m ++ rest.
Proof.
  destruct m as [log [a|e]]; cbn.
  - destruct (f a) as [log' r]. by exists log'.
  - exists []. by rewrite app_nil_r.
Qed.

Lemma mapM_Raise {A B} (f : A → result B) (l : list A) e :
  Forall (λ x, (∃ y, f x = Ok y) ∨ f x = Raise e) l →
  Exists (λ x, f x = Raise e) l →
  mapM f l = Raise e.
Proof.
  induction 1 as [|x l [[y Hx]|Hx] _ IH]; intros Hex.
  - by apply Exists_nil in Hex.
  - apply Exists_cons in Hex as [Hex|Hex]; [congruence|].
    cbn. rewrite Hx. cbn. by rewrite IH.
  - cbn. by rewrite Hx.
Qed.

Lemma mapM_Raise_first {A B} (f : A → result B) (l : list A) x l' e :
  Forall (λ x, ∃ y, f x = Ok y) l →
  f x = Raise e →
  mapM f (l ++ x :: l') = Raise e.
Proof.
  intros Hl Hx. induction Hl as [|a l [y Ha] _ IH]; cbn.
  - by rewrite Hx.
  - rewrite Ha. cbn. by rewrite IH.
Qed.

Lemma mapM_Raise_inv {A B} (f : A → result B) (l : list A) e :
  mapM f l = Raise e → ∃ x, x ∈ l ∧ f x = Raise e.
Proof.
  induction l as [|x l IH]; cbn; [done|].
  destruct (f x) as [y|e'] eqn:Hx; cbn.
  - destruct (mapM f l) as [k|e'] eqn:Hl; cbn; [done|].
    intros [= ->]. destruct IH as (x' & Hin & Hx'); [done|].
    exists x'. split; [by right|done].
  - intros [= ->]. exists x. split; [by left|done].
Qed.

(** *** The client when the fetch fails *)

Lemma list_countries_on_failure e :
  fetch_fails' POLYGON_URL list_countries_params e →
  list_countries' =
    ([HttpGet POLYGON_URL list_countries_params;
      StError ("Failed to fetch data: " +:+ exn_text e)], Ok []).
Proof.
  intros Hfail. unfold list_countries, session_get.
  destruct Hfail as [[[Hs ->]|(status & body & Hs & Hst & ->)]
                    |(status & Hs & Hst & -> & ->)]; cbv zeta; rewrite Hs.
  - done.
  - cbn. by rewrite raise_for_status_fails.
  - cbn. by rewrite raise_for_status_ok.
Qed.

Lemma query_polygons_on_failure cc e :
  fetch_fails' POLYGON_URL (query_polygons_params cc) e →
  query_polygons' cc =
    ([HttpGet POLYGON_URL (query_polygons_params cc);
      StError ("Failed to fetch data: " +:+ exn_text e)], Ok (JObj ∅)).
Proof.
  intros Hfail. unfold query_polygons, session_get.
  destruct Hfail as [[[Hs ->]|(status & body & Hs & Hst & ->)]
                    |(status & Hs & Hst & -> & ->)]; cbv zeta; rewrite Hs.
  - done.
  - cbn. by rewrite raise_for_status_fails.
  - cbn. by rewrite raise_for_status_ok.
Qed.

Lemma query_points_on_failure cc codes e :
  fetch_fails' POINT_URL (query_points_params py_repr cc codes) e →
  query_points' cc codes =
    ([HttpGet POINT_URL (query_points_params py_repr cc codes);
      Print ("Failed to fetch data: " +:+ exn_text e)], Ok (JObj ∅)).
Proof.
  intros Hfail. unfold query_points, session_get.
  destruct Hfail as [[[Hs ->]|(status & body & Hs & Hst & ->)]
                    |(status & Hs & Hst & -> & ->)]; cbv zeta; rewrite Hs.
  - done.
  - cbn. by rewrite raise_for_status_fails.
  - cbn. by rewrite raise_for_status_ok.
Qed.

(** X1: when the fetch fails, [list_countries] shows the error on the page
    and returns the empty list, after its one request. *)
Theorem list_countries_fetch_fails e :
  fetch_fails' POLYGON_URL list_countries_params e →
  events list_countries' =
    [HttpGet POLYGON_URL list_countries_params;
     StError ("Failed to fetch data: " +:+ exn_text e)]
  ∧ outcome list_countries' = Ok [].
Proof. intros Hfail. by rewrite (list_countries_on_failure e). Qed.

(** X2: when the fetch fails, [query_polygons] shows the error on the page
    and returns the empty dict, which Python takes for false. *)
Theorem query_polygons_fetch_fails cc e :
  fetch_fails' POLYGON_URL (query_polygons_params cc) e →
  events (query_polygons' cc) =
    [HttpGet POLYGON_URL (query_polygons_params cc);
     StError ("Failed to fetch data: " +:+ exn_text e)]
  ∧ outcome (query_polygons' cc) = Ok (JObj ∅)
  ∧ truthy (JObj ∅) = false.
Proof. intros Hfail. by rewrite (query_polygons_on_failure cc e). Qed.

(** X3: when the fetch fails, [query_points] returns the empty dict after
    a line on the standard output: nothing is shown on the page. *)
Theorem query_points_fetch_fails cc codes e :
  fetch_fails' POINT_URL (query_points_params py_repr cc codes) e →
  query_points' cc codes =
    ([HttpGet POINT_URL (query_points_params py_repr cc codes);
      Print ("Failed to fetch data: " +:+ exn_text e)], Ok (JObj ∅))
  ∧ ∀ msg, (StError msg ∉ events (query_points' cc codes))
           ∧ (StWarning msg ∉ events (query_points' cc codes)).
Proof.
  intros Hfail. rewrite (query_points_on_failure cc codes e) by done.
  split; [done|]. intros msg. cbn.
  split; intros H; repeat (apply elem_of_cons in H as [[=]|H]);
    by apply elem_of_nil in H.
Qed.

(** X4: a body that is not JSON, met by a [requests] that lets the error
    of the json module through, makes each operation of the client raise
    that error: the handler does not catch it and nothing is shown. *)
Theorem client_json_error_escapes cc codes status :
  json_error_is_request_exception = false →
  ok_status status →
  (service POLYGON_URL list_countries_params = Response status None →
   list_countries' =
     ([HttpGet POLYGON_URL list_countries_params], Raise JSONDecodeError))
  ∧ (service POLYGON_URL (query_polygons_params cc) = Response status None →
     query_polygons' cc =
       ([HttpGet POLYGON_URL (query_polygons_params cc)], Raise JSONDecodeError))
  ∧ (service POINT_URL (query_points_params py_repr cc codes)
       = Response status None →
     query_points' cc codes =
       ([HttpGet POINT_URL (query_points_params py_repr cc codes)],
        Raise JSONDecodeError)).
Proof.
  intros -> Hst. split_and!; intros Hs.
  - unfold list_countries, session_get. cbv zeta. rewrite Hs. cbn.
    by rewrite raise_for_status_ok.
  - unfold query_polygons, session_get. cbv zeta. rewrite Hs. cbn.
    by rewrite raise_for_status_ok.
  - unfold query_points, session_get. cbv zeta. rewrite Hs. cbn.
    by rewrite raise_for_status_ok.
Qed.

(** *** The client on an answer *)

(** X5: on an answer that is a JSON object, [query_polygons] returns that
    object with [feature_type] set to ["Polygon"] and every other key as
    it was, a dict that is never empty; an answer that is JSON but not an
    object makes it raise [TypeError]. *)
Theorem query_polygons_answer cc status body :
  service POLYGON_URL (query_polygons_params cc) = Response status (Some body) →
  ok_status status →
  match body with
  | JObj data =>
      ∃ result,
        query_polygons' cc
          = ([HttpGet POLYGON_URL (query_polygons_params cc)], Ok (JObj result))
        ∧ result !! "feature_type" = Some (JStr "Polygon")
        ∧ (∀ k, k ≠ "feature_type" → result !! k = data !! k)
        ∧ truthy (JObj result) = true
  | _ =>
      query_polygons' cc
        = ([HttpGet POLYGON_URL (query_polygons_params cc)], Raise TypeError)
  end.
Proof.
  intros Hs Hst.
  assert (query_polygons' cc =
    try_except
      ([HttpGet POLYGON_URL (query_polygons_params cc)],
       setitem body "feature_type" (JStr "Polygon"))
      (is_request_exception json_error_is_request_exception)
      (λ e, emit (StError ("Failed to fetch data: " +:+ exn_text e));;
            mret (JObj ∅))) as ->.
  { unfold query_polygons, session_get. cbv zeta. rewrite Hs. cbn.
    rewrite raise_for_status_ok by done. cbn.
    by destruct (setitem body "feature_type" (JStr "Polygon")). }
  destruct body; try done.
  eexists. split_and!; [done|..].
  - by rewrite lookup_insert_eq.
  - intros k Hk. by rewrite lookup_insert_ne.
  - apply truthy_insert.
Qed.

(** X6: on an answer whose features all have a [gis_name],
    [query_points] returns the answer with [feature_type] set to
    ["Point"] and with as many features, in the same order, each with
    [prefixed_gis_name] set to ["POINT_"] followed by its [gis_name] and
    everything else as it was. *)
Theorem query_points_answer cc codes status data points :
  service POINT_URL (query_points_params py_repr cc codes)
    = Response status (Some (JObj data)) →
  ok_status status →
  data !! "features" = Some (JArr points) →
  Forall (λ f, ∃ p, feature_with p f ∧ is_Some (p !! "gis_name")) points →
  ∃ points',
    query_points' cc codes =
      ([HttpGet POINT_URL (query_points_params py_repr cc codes)],
       Ok (JObj (<["feature_type" := JStr "Point"]>
                  (<["features" := JArr points']> data))))
    ∧ Forall2 (prefixed py_repr) points points'.
Proof.
  intros Hs Hst Hfeatures Hpoints.
  assert (∃ points', Forall2 (prefixed py_repr) points points') as [points' H].
  { clear Hfeatures.
    induction Hpoints as [|f points (p & (m & -> & Hm) & [name Hname]) _
                           [points' IH]].
    - exists []. constructor.
    - eexists (_ :: points'). constructor; [|done]. by exists m, p, name. }
  exists points'. split; [|done].
  eapply query_points_returns; [done..|].
  eapply Forall2_impl; [done|].
  intros f f' (m & p & name & -> & Hm & Hname & ->).
  unfold add_prefixed_gis_name. cbn. rewrite Hm. cbn. by rewrite Hname.
Qed.

(** X7: one feature without [gis_name] in the answer makes [query_points]
    raise [KeyError]: no feature of the answer is returned. *)
Theorem query_points_missing_gis_name cc codes status data points :
  service POINT_URL (query_points_params py_repr cc codes)
    = Response status (Some (JObj data)) →
  ok_status status →
  data !! "features" = Some (JArr points) →
  Forall (λ f, ∃ p, feature_with p f) points →
  Exists (lacks "gis_name") points →
  query_points' cc codes =
    ([HttpGet POINT_URL (query_points_params py_repr cc codes)],
     Raise KeyError).
Proof.
  intros Hs Hst Hfeatures Hpoints Hlacks.
  assert (mapM (add_prefixed_gis_name py_repr) points = Raise KeyError) as Hmap.
  { apply mapM_Raise.
    - eapply Forall_impl; [done|]. intros f (p & m & -> & Hm).
      unfold add_prefixed_gis_name. cbn. rewrite Hm. cbn.
      destruct (p !! "gis_name"); cbn; eauto.
    - eapply Exists_impl; [done|]. intros f (p & (m & -> & Hm) & Hname).
      unfold add_prefixed_gis_name. cbn. rewrite Hm. cbn. by rewrite Hname. }
  unfold query_points, session_get. cbv zeta. rewrite Hs. cbn.
  rewrite raise_for_status_ok by done. cbn. rewrite Hfeatures. cbn.
  assert (truthy (JArr points) = true) as ->.
  { destruct points; [by apply Exists_nil in Hlacks|done]. }
  unfold for_each_in_place. by rewrite Hmap.
Qed.

(** X8: one feature without [site_code] in the answer makes
    [list_countries] raise [KeyError]: the codes of the other features are
    not returned. *)
Theorem list_countries_missing_site_code status data items :
  service POLYGON_URL list_countries_params
    = Response status (Some (JObj data)) →
  ok_status status →
  data !! "features" = Some (JArr items) →
  Forall (λ f, (∃ code, site_feature code f) ∨ lacks "site_code" f) items →
  Exists (lacks "site_code") items →
  list_countries' =
    ([HttpGet POLYGON_URL list_countries_params], Raise KeyError).
Proof.
  intros Hs Hst Hfeatures Hitems Hlacks.
  assert (∀ f, lacks "site_code" f → site_code_prefix f = Raise KeyError)
    as Hraise.
  { intros f (p & (m & -> & Hm) & Hcode).
    unfold site_code_prefix. cbn. rewrite Hm. cbn. by rewrite Hcode. }
  assert (mapM site_code_prefix items = Raise KeyError) as Hmap.
  { apply mapM_Raise.
    - eapply Forall_impl; [done|]. intros f [[code Hf]|Hf].
      + left. eexists. by apply site_code_prefix_site_feature.
      + right. by apply Hraise.
    - eapply Exists_impl; [done|]. done. }
  unfold list_countries, session_get. cbv zeta. rewrite Hs. cbn.
  rewrite raise_for_status_ok by done. cbn. rewrite Hfeatures. cbn.
  by rewrite Hmap.
Qed.

(** *** extract_site_codes and gen_polygons *)

(** X10: [extract_site_codes] returns the site codes of the features, one
    for each and in their order, and the loop that tags the features
    leaves them as they are: the codes extracted after the tagging are the
    codes of the answer. *)
Theorem extract_site_codes_after_tagging tag m polys codes :
  m !! "features" = Some (JArr polys) →
  Forall2 has_site_code codes polys →
  ∃ tagged,
    for_each_in_place (tag_feature tag) (JArr polys) = Ok (JArr tagged)
    ∧ extract_site_codes (JObj m) = Ok codes
    ∧ extract_site_codes (JObj (<["features" := JArr tagged]> m)) = Ok codes
    ∧ length codes = length polys.
Proof.
  intros Hm Hcodes. exists (with_feature_type tag <$> polys). split_and!.
  - apply for_each_tag. by eapply has_site_code_feature.
  - eapply extract_site_codes_returns; [by rewrite Hm|done].
  - eapply extract_site_codes_returns; [by rewrite lookup_insert_eq|].
    apply Forall2_fmap_r. eapply Forall2_impl; [done|].
    intros. by apply has_site_code_with_feature_type.
  - by eapply Forall2_length.
Qed.

Lemma length_list_ascii_of_string s :
  length (String.list_ascii_of_string s) = String.length s.
Proof. induction s as [|c s IH]; [done|]. cbn. by rewrite IH. Qed.

Lemma py_len_py_iter v items :
  py_iter v = Ok items → py_len v = Ok (length items).
Proof.
  destruct v; try done; cbn; intros [= <-].
  - unfold chars. by rewrite length_fmap, length_list_ascii_of_string.
  - done.
  - by rewrite !length_fmap, length_map_to_list.
Qed.

Lemma getitem_raises v k e :
  getitem v k = Raise e → e = KeyError ∨ e = TypeError.
Proof.
  destruct v as [| | | | | |m]; cbn; try (intros [= <-]; by right).
  destruct (m !! k); [done|]. intros [= <-]. by left.
Qed.

(** X11: the assertion of [gen_polygons] never fails: unless shapely
    itself raises [AssertionError], [gen_polygons] does not, whatever it
    is given. *)
Theorem gen_polygons_assertion_holds data r :
  (∀ coords, point_buffer coords r ≠ Raise AssertionError) →
  gen_polygons point_buffer data r ≠ Raise AssertionError.
Proof.
  intros Hbuffer. unfold gen_polygons.
  destruct (get_default data "features" (JArr [])) as [features|e] eqn:Hget;
    cbn; [|intros [= ->]; by destruct data].
  destruct (py_iter features) as [items|e] eqn:Hiter; cbn;
    [|intros [= ->]; by destruct features].
  destruct (mapM (buffered_feature point_buffer r) items)
    as [buffered|e] eqn:Hmap; cbn.
  - rewrite (py_len_py_iter _ _ Hiter). cbn.
    rewrite bool_decide_true; [done|]. by apply mapM_Ok_length in Hmap.
  - intros [= ->]. apply mapM_Raise_inv in Hmap as (f & _ & Hf).
    unfold buffered_feature in Hf.
    destruct (getitem f "geometry") as [g|?] eqn:Hg; cbn in Hf.
    2:{ injection Hf as ->. by apply getitem_raises in Hg as [?|?]. }
    destruct (getitem g "coordinates") as [c|?] eqn:Hc; cbn in Hf.
    2:{ injection Hf as ->. by apply getitem_raises in Hc as [?|?]. }
    destruct (point_buffer c r) as [b|?] eqn:Hb; cbn in Hf.
    + destruct (getitem f "properties") as [p|?] eqn:Hp; cbn in Hf; [done|].
      injection Hf as ->. by apply getitem_raises in Hp as [?|?].
    + injection Hf as ->. by eapply Hbuffer.
Qed.

(** X12: one feature without [geometry] among point features that
    shapely buffers makes [gen_polygons] raise [KeyError]: no polygon is
    returned, also not for the features that have a position. *)
Theorem gen_polygons_missing_geometry data P r :
  default (JArr []) (data !! "features") = JArr P →
  Forall (λ f, (∃ p g, buffered_point point_buffer r p g f)
               ∨ ∃ m, f = JObj m ∧ m !! "geometry" = None) P →
  Exists (λ f, ∃ m, f = JObj m ∧ m !! "geometry" = None) P →
  gen_polygons point_buffer (JObj data) r = Raise KeyError.
Proof.
  intros Hfeatures HP Hex.
  assert (∀ f, (∃ m, f = JObj m ∧ m !! "geometry" = None) →
               buffered_feature point_buffer r f = Raise KeyError) as Hraise.
  { intros f (m & -> & Hm). unfold buffered_feature. cbn. by rewrite Hm. }
  unfold gen_polygons. cbn. rewrite Hfeatures. cbn.
  rewrite (mapM_Raise _ _ KeyError); [done| |].
  - eapply Forall_impl; [done|]. intros f [(p & g & coords & Hf & Hg)|Hf].
    + left. eexists. by eapply buffered_feature_returns.
    + right. by apply Hraise.
  - eapply Exists_impl; [done|]. done.
Qed.

(** X27: where shapely raises, [gen_polygons] raises with it: when the
    features before [f] are points that shapely buffers and shapely raises
    [e] at the position of [f], [gen_polygons] raises [e] and returns no
    polygon, whatever comes after [f]. *)
Theorem gen_polygons_raises_with_shapely
    data before f after r m geometry coords e :
  default (JArr []) (data !! "features") = JArr (before ++ f :: after) →
  Forall (λ f, ∃ p g, buffered_point point_buffer r p g f) before →
  f = JObj m →
  m !! "geometry" = Some (JObj geometry) →
  geometry !! "coordinates" = Some coords →
  point_buffer coords r = Raise e →
  gen_polygons point_buffer (JObj data) r = Raise e.
Proof.
  intros Hfeatures Hbefore -> Hm Hgeometry He.
  unfold gen_polygons. cbn. rewrite Hfeatures. cbn.
  rewrite (mapM_Raise_first _ _ _ _ e); [done| |].
  - eapply Forall_impl; [done|]. intros f (p & g & c & Hf & Hg).
    eexists. by eapply buffered_feature_returns.
  - unfold buffered_feature. cbn. rewrite Hm. cbn. rewrite Hgeometry. cbn.
    by rewrite He.
Qed.

(** *** process_country *)

Ltac process_country_start Hpoly Hfeat Hcodes :=
  unfold process_country; rewrite Hpoly; step;
  rewrite (truthy_lookup _ _ _ Hfeat); step; rewrite Hfeat; step;
  rewrite for_each_tag by (by eapply has_site_code_feature); step;
  erewrite extract_site_codes_returns;
    [| by rewrite lookup_insert_eq
     | apply Forall2_fmap_r; eapply Forall2_impl; [exact Hcodes|];
       intros; by apply has_site_code_with_feature_type ];
  step.

(** X13: when the fetch of the official polygons fails, [process_country]
    reports "no data" and returns no result, and the point layer is not
    queried. *)
Theorem process_country_fetch_fails cc r e :
  fetch_fails' POLYGON_URL (query_polygons_params cc) e →
  process_country' cc r =
    ([HttpGet POLYGON_URL (query_polygons_params cc);
      StError ("Failed to fetch data: " +:+ exn_text e);
      Print "No data found for the country"], Ok None)
  ∧ ∀ params, HttpGet POINT_URL params ∉ events (process_country' cc r).
Proof.
  intros Hfail.
  assert (process_country' cc r =
    ([HttpGet POLYGON_URL (query_polygons_params cc);
      StError ("Failed to fetch data: " +:+ exn_text e);
      Print "No data found for the country"], Ok None)) as ->.
  { unfold process_country. by rewrite (query_polygons_on_failure cc e). }
  split; [done|]. intros params H. cbn in H.
  repeat (apply elem_of_cons in H as [H|H]); try done.
  by apply elem_of_nil in H.
Qed.

Lemma query_polygons_outcome cc v :
  outcome (query_polygons' cc) = Ok v →
  v = JObj ∅ ∨ ∃ m, v = JObj (<["feature_type" := JStr "Polygon"]> m).
Proof.
  unfold query_polygons, session_get. cbv zeta.
  destruct (service POLYGON_URL (query_polygons_params cc))
    as [|status body]; cbn.
  { intros [= <-]. by left. }
  destruct (raise_for_status (Response status body)) as [[]|e] eqn:Hst; cbn.
  2:{ destruct (is_request_exception _ e); cbn; [|done].
      intros [= <-]. by left. }
  destruct body as [body|]; cbn.
  2:{ destruct json_error_is_request_exception; cbn; [|done].
      intros [= <-]. by left. }
  destruct body; cbn; try done. intros [= <-]. right. by eexists.
Qed.

Lemma query_polygons_empty cc :
  outcome (query_polygons' cc) = Ok (JObj ∅) →
  ∃ e, fetch_fails' POLYGON_URL (query_polygons_params cc) e.
Proof.
  unfold query_polygons, session_get, fetch_fails, request_fails. cbv zeta.
  destruct (service POLYGON_URL (query_polygons_params cc))
    as [|status body]; cbn.
  { intros _. exists ConnectionError. left. by left. }
  destruct (decide (ok_status status)) as [Hok|Hbad].
  - rewrite (raise_for_status_ok _ _ Hok). cbn.
    destruct body as [body|]; cbn.
    + destruct body; cbn; try done.
      intros [= Hm]. by apply insert_non_empty in Hm.
    + destruct json_error_is_request_exception eqn:Hflag; cbn; [|done].
      intros _. exists JSONDecodeError. right. by exists status.
  - rewrite (raise_for_status_fails _ _ Hbad). cbn.
    intros _. exists (HTTPError status). left. right. by exists status, body.
Qed.

Lemma bind_not_None {A B} (m : M A) (f : A → M (option B)) :
  (∀ a, outcome (f a) ≠ Ok None) → outcome (m ≫= f) ≠ Ok None.
Proof.
  intros Hf. destruct m as [log [a|e]]; cbn; [|done].
  specialize (Hf a). by destruct (f a).
Qed.

Lemma outcome_bind_Ok {A B} log (a : A) (f : A → M B) :
  outcome ((log, Ok a) ≫= f) = outcome (f a).
Proof. cbn. by destruct (f a). Qed.

(** X14: [process_country] returns no result only when the fetch of the
    official polygons failed: after an answer of the polygon layer, also
    one with zero features, it returns a collection or raises. *)
Theorem process_country_None cc r :
  outcome (process_country' cc r) = Ok None →
  ∃ e, fetch_fails' POLYGON_URL (query_polygons_params cc) e.
Proof.
  intros Hnone. apply query_polygons_empty. revert Hnone.
  unfold process_country.
  destruct (query_polygons' cc) as [log [v|e]] eqn:Hq; [|done].
  destruct (query_polygons_outcome cc v) as [->|[m ->]];
    [by rewrite Hq|done|].
  rewrite outcome_bind_Ok, truthy_insert. cbn [negb].
  intros Hnone. exfalso. revert Hnone.
  repeat (apply bind_not_None; intros).
  match goal with |- context [if ?b then _ else _] => destruct b end.
  - by repeat (apply bind_not_None; intros).
  - by repeat (apply bind_not_None; intros).
Qed.


Lemma try_except_events {A} (m : M A) catches handler :
  ∃ rest, events (try_except m catches handler) = events m ++ rest.
Proof.
  destruct m as [log [a|e]]; cbn.
  - exists []. by rewrite app_nil_r.
  - destruct (catches e).
    + destruct (handler e) as [log' r]. by exists log'.
    + exists []. by rewrite app_nil_r.
Qed.

Lemma query_points_first_event cc codes :
  ∃ rest,
    events (query_points' cc codes)
      = HttpGet POINT_URL (query_points_params py_repr cc codes) :: rest.
Proof.
  unfold query_points, session_get. cbv zeta.
  match goal with
  | |- context [try_except (?m ≫= ?k) ?c ?h] =>
      destruct (try_except_events (m ≫= k) c h) as [r1 ->];
      destruct (events_bind m k) as [r2 ->];
      destruct (events_bind (emit (HttpGet POINT_URL
                  (query_points_params py_repr cc codes)))
                  (λ _, match service POINT_URL
                                (query_points_params py_repr cc codes) with
                        | NoResponse => lift (Raise ConnectionError)
                        | r => mret r
                        end)) as [r3 ->]
  end.
  cbn. by eexists.
Qed.

(** X15: after an answer of the polygon layer, the second request of
    [process_country] goes to the point layer, and its filter excludes the
    site codes of the official polygons, each of them and in their order,
    whatever the point layer answers. *)
Theorem process_country_excludes_official_sites cc r log1 m polys codes :
  query_polygons' cc = (log1, Ok (JObj m)) →
  m !! "features" = Some (JArr polys) →
  Forall2 has_site_code codes polys →
  ∃ rest,
    events (process_country' cc r) =
      log1 ++
      [Print ("Successfully fetched " +:+ pretty (length polys) +:+
              " official polygons");
       HttpGet POINT_URL (query_points_params py_repr cc codes)] ++ rest.
Proof.
  intros Hpoly Hfeat Hcodes.
  process_country_start Hpoly Hfeat Hcodes.
  match goal with
  | |- context [?q ≫= ?k] =>
      destruct (events_bind q k) as [r1 Hr1];
      destruct (q ≫= k) as [lq rq]
  end.
  destruct (query_points_first_event cc codes) as [r2 Hr2].
  cbn in Hr1. rewrite Hr2 in Hr1. subst lq. cbn. by eexists.
Qed.


Lemma generated_point_steps r pt gen :
  generated_point py_repr point_buffer r pt gen →
  ∃ pt' buf,
    add_prefixed_gis_name py_repr pt = Ok pt'
    ∧ buffered_feature point_buffer r pt' = Ok buf
    ∧ (∃ p, feature_with p buf)
    ∧ with_feature_type "Generated Polygon" buf = gen.
Proof.
  intros (m & p & name & geometry & coords & g
          & -> & Hm & Hname & Hgeo & Hcoords & Hg & ->).
  eexists _, _. split_and!.
  - unfold add_prefixed_gis_name. cbn. rewrite Hm. cbn. by rewrite Hname.
  - unfold buffered_feature. step.
    rewrite (lookup_insert_ne _ "properties" "geometry") by done.
    rewrite Hgeo. step. rewrite Hcoords.
    step. rewrite Hg. step. by rewrite lookup_insert_eq.
  - eexists. eexists. split; [done|]. reflexivity.
  - done.
Qed.

Lemma generated_point_list r points gens :
  Forall2 (generated_point py_repr point_buffer r) points gens →
  ∃ points' bufs,
    Forall2 (λ pt pt', add_prefixed_gis_name py_repr pt = Ok pt') points points'
    ∧ Forall2 (λ f o, buffered_feature point_buffer r f = Ok o) points' bufs
    ∧ Forall (λ f, ∃ p, feature_with p f) bufs
    ∧ with_feature_type "Generated Polygon" <$> bufs = gens.
Proof.
  induction 1 as [|pt gen points gens Hgen _ (points' & bufs & H1 & H2 & H3 & <-)].
  - exists [], []. by repeat constructor.
  - apply generated_point_steps in Hgen as (pt' & buf & Ha & Hb & Hp & <-).
    exists (pt' :: points'), (buf :: bufs). by repeat constructor.
Qed.

(** X16: from the two answers of the service to the result: when the
    polygon layer answers with features that have site codes and the point
    layer answers with one or more points that shapely buffers,
    [process_country] makes its two requests and returns the official
    polygons, tagged, followed by one generated polygon for each point of
    the answer, in the order of the answer, with the properties of the
    point, its [prefixed_gis_name] and the tag of the generated
    polygons. *)
Theorem process_country_from_answers
    cc r status1 data1 polys codes status2 data2 points gens :
  service POLYGON_URL (query_polygons_params cc)
    = Response status1 (Some (JObj data1)) →
  ok_status status1 →
  data1 !! "features" = Some (JArr polys) →
  Forall2 has_site_code codes polys →
  service POINT_URL (query_points_params py_repr cc codes)
    = Response status2 (Some (JObj data2)) →
  ok_status status2 →
  data2 !! "features" = Some (JArr points) →
  points ≠ [] →
  Forall2 (generated_point py_repr point_buffer r) points gens →
  process_country' cc r =
    ([HttpGet POLYGON_URL (query_polygons_params cc);
      Print ("Successfully fetched " +:+ pretty (length polys) +:+
             " official polygons");
      HttpGet POINT_URL (query_points_params py_repr cc codes);
      Print ("Successfully fetched " +:+ pretty (length points) +:+ " points")],
     Ok (Some (feature_collection
                 ((with_feature_type "Official Polygon" <$> polys) ++ gens))))
  ∧ length gens = length points.
Proof.
  intros Hs1 Hst1 Hf1 Hcodes Hs2 Hst2 Hf2 Hne Hgens.
  split; [|symmetry; by eapply Forall2_length].
  destruct (generated_point_list _ _ _ Hgens)
    as (points' & bufs & Hprefixed & Hbufs & Hfeats & <-).
  pose proof (query_polygons_returns service json_error_is_request_exception
                exn_text cc status1 data1 Hs1 Hst1) as Hpoly.
  pose proof (query_points_returns service json_error_is_request_exception
                exn_text py_repr cc codes status2 data2 points points'
                Hs2 Hst2 Hf2 Hprefixed) as Hpts.
  assert (<["feature_type" := JStr "Polygon"]> data1 !! "features"
          = Some (JArr polys)) as Hfeat by by rewrite lookup_insert_ne.
  assert (length points' = length points) as Hlen
    by (symmetry; by eapply Forall2_length).
  remember (<["feature_type" := JStr "Point"]>
              (<["features" := JArr points']> data2)) as pd eqn:Hpd.
  assert (pd !! "features" = Some (JArr points')) as Hpf.
  { subst pd. rewrite lookup_insert_ne by done. by rewrite lookup_insert_eq. }
  clear Hpd.
  process_country_start Hpoly Hfeat Hcodes.
  rewrite Hpts. step. rewrite (truthy_lookup _ _ _ Hpf). step.
  rewrite Hpf. step.
  assert (truthy (JArr points') = true) as -> by by destruct points, points'.
  step.
  erewrite gen_polygons_returns; [| by rewrite Hpf | done].
  unfold feature_collection at 1. step.
  rewrite collection_features. step.
  rewrite for_each_tag by done. step.
  rewrite !lookup_insert_eq. step.
  assert (truthy (JArr (with_feature_type "Generated Polygon" <$> bufs))
          = true) as ->.
  { apply Forall2_length in Hbufs. by destruct points, points', bufs. }
  step. by rewrite Hlen.
Qed.


(** *** The page: labels, selection, map *)

Lemma lookup_display_names p k :
  display_names p !! k =
    if decide (k = "name") then
      match p !! "gis_name" with Some x => Some x | None => p !! "name" end
    else if decide (k = "gis_name") then None
    else if decide (k = "site_code") then
      match p !! "pcode" with Some x => Some x | None => p !! "site_code" end
    else if decide (k = "pcode") then None
    else p !! k.
Proof.
  unfold display_names. rewrite !lookup_rename_key by done.
  repeat (case_decide; subst; try done).
Qed.

(** X17: the label of a feature that holds its code and name under
    [pcode] and [gis_name], as every generated polygon does when the page
    first shows it, has ["N/A"] in their place, so all generated polygons
    share one label; after the display rename the label shows the code and
    the name. *)
Theorem label_before_and_after_display_rename f p code name :
  feature_with p f →
  p !! "site_code" = None →
  p !! "name" = None →
  p !! "pcode" = Some code →
  p !! "gis_name" = Some name →
  let kind := py_str py_repr (default (JStr "N/A") (p !! "feature_type")) in
  feature_label py_repr f = Ok ("N/A - N/A (" +:+ kind +:+ ")")
  ∧ (display_rename f ≫= feature_label py_repr)
    = Ok (py_str py_repr code +:+ " - " +:+ py_str py_repr name +:+
          " (" +:+ kind +:+ ")").
Proof.
  intros Hf Hsite Hname Hpcode Hgis kind. split.
  - rewrite (feature_label_with_properties py_repr p) by done.
    by rewrite Hsite, Hname.
  - rewrite (display_rename_with_properties p) by done. cbn.
    rewrite (feature_label_with_properties py_repr (display_names p))
      by by eapply feature_with_with_properties.
    rewrite !lookup_display_names. cbn. by rewrite Hpcode, Hgis.
Qed.

Lemma select_feature_no_match fo fl sel :
  (∀ i f l, fo !! i = Some f → fl !! i = Some l → sel ≠ Some l) →
  select_feature fo fl sel = Raise StopIteration.
Proof.
  intros Hnone. unfold select_feature.
  destruct (filter (λ x, Some x.2 = sel) (zip fo fl)) as [|[f l] rest] eqn:Hfilter;
    [done|].
  assert ((f, l) ∈ filter (λ x, Some x.2 = sel) (zip fo fl)) as Hin
    by (rewrite Hfilter; left).
  apply list_elem_of_filter in Hin as [Hsel Hin].
  apply list_elem_of_lookup in Hin as [i Hi].
  apply lookup_zip_with_Some in Hi as (? & ? & [= <- <-] & ? & ?).
  by edestruct Hnone.
Qed.

(** X18: [select_feature] returns a feature of the list that carries the
    selected label, and raises [StopIteration], nothing else, exactly when
    no feature carries it, as when nothing is selected or the list is
    empty. *)
Theorem select_feature_finds_or_stops fo fl sel :
  match select_feature fo fl sel with
  | Ok f => ∃ i l, sel = Some l ∧ fo !! i = Some f ∧ fl !! i = Some l
  | Raise e =>
      e = StopIteration
      ∧ ∀ i f l, fo !! i = Some f → fl !! i = Some l → sel ≠ Some l
  end.
Proof.
  unfold select_feature.
  destruct (filter (λ x, Some x.2 = sel) (zip fo fl)) as [|[f l] rest] eqn:Hfilter.
  - split; [done|]. intros i f l Hf Hl Hsel.
    assert ((f, l) ∈ filter (λ x, Some x.2 = sel) (zip fo fl)) as Hin.
    { apply list_elem_of_filter. split; [done|].
      apply list_elem_of_lookup. exists i. apply lookup_zip_with_Some. eauto. }
    rewrite Hfilter in Hin. by apply elem_of_nil in Hin.
  - assert ((f, l) ∈ filter (λ x, Some x.2 = sel) (zip fo fl)) as Hin
      by (rewrite Hfilter; left).
    apply list_elem_of_filter in Hin as [Hsel Hin].
    apply list_elem_of_lookup in Hin as [i Hi].
    apply lookup_zip_with_Some in Hi as (? & ? & [= <- <-] & ? & ?).
    by exists i, l.
Qed.

(** X19: when the selected label is the label of no feature, as it is
    when the collection has no feature at all, the part of the script that
    shows the collection raises [StopIteration] before it draws or writes
    anything. *)
Theorem display_without_selection w m fo :
  m !! "features" = Some (JArr fo) →
  Forall (λ f, ∃ p, feature_with p f) fo →
  (∀ f l, f ∈ fo → feature_label py_repr f = Ok l → selected_label w ≠ Some l) →
  display py_repr w (JObj m) = ([], Raise StopIteration).
Proof.
  intros Hm Hfo Hsel.
  assert (∃ fl, Forall2 (λ f l, feature_label py_repr f = Ok l) fo fl)
    as [fl Hfl].
  { clear Hm Hsel. induction Hfo as [|f fo [p Hp] _ [fl IH]].
    - exists []. constructor.
    - eexists (_ :: fl). constructor; [|done].
      by apply feature_label_with_properties. }
  unfold display. step. rewrite Hm. step.
  rewrite (mapM_Ok _ _ _ Hfl). step.
  rewrite select_feature_no_match; [done|].
  intros i f l Hf Hl.
  destruct (Forall2_lookup_l _ _ _ _ _ Hfl Hf) as (l' & Hl' & Hlabel).
  apply (Hsel f l); [by eapply list_elem_of_lookup_2|congruence].
Qed.

(** X20: the map is centred on the first position of the selected
    feature, latitude before longitude: the first position of the first
    ring of a polygon, of the first ring of the first polygon of a
    multipolygon, and the position itself for any other geometry; a
    polygon without any ring raises [IndexError]. *)
Theorem map_center_first_position f m g ty coords lon lat more :
  f = JObj m →
  m !! "geometry" = Some (JObj g) →
  g !! "type" = Some (JStr ty) →
  g !! "coordinates" = Some coords →
  let position := JArr (lon :: lat :: more) in
  (ty = "Polygon" →
     (∀ ring rings, coords = JArr (JArr (position :: ring) :: rings) →
        map_center f = Ok (lat, lon))
     ∧ (coords = JArr [] → map_center f = Raise IndexError))
  ∧ (ty = "MultiPolygon" →
     ∀ ring rings polygons,
       coords = JArr (JArr (JArr (position :: ring) :: rings) :: polygons) →
       map_center f = Ok (lat, lon))
  ∧ (ty ≠ "Polygon" → ty ≠ "MultiPolygon" → coords = position →
     map_center f = Ok (lat, lon)).
Proof.
  intros -> Hm Hty Hcoords position.
  assert (∀ t, String.eqb ty t = bool_decide (ty = t)) as Hstr.
  { intros t. destruct (String.eqb_spec ty t).
    - by rewrite bool_decide_true.
    - by rewrite bool_decide_false. }
  unfold map_center. step. rewrite Hm. step. rewrite Hty. step.
  rewrite !Hstr. rewrite Hcoords.
  split_and!.
  - intros ->. rewrite bool_decide_true by done. split.
    + by intros ring rings ->.
    + by intros ->.
  - intros -> ring rings polygons ->. rewrite bool_decide_false by done.
    step. by rewrite bool_decide_true.
  - intros H1 H2 ->. rewrite !bool_decide_false by done. done.
Qed.


(** *** The page: renaming and export *)

(** X21: a rename moves the value of the old key under the new key and
    leaves every other key as it was; when the new key is there already,
    its value is overwritten and the properties end up with one key
    fewer. *)
Theorem rename_property_moves_and_overwrites old new f p x :
  feature_with p f →
  old ≠ new →
  p !! old = Some x →
  ∃ p',
    rename_property old new f = Ok (with_properties p' f)
    ∧ p' !! new = Some x
    ∧ p' !! old = None
    ∧ (∀ k, k ≠ old → k ≠ new → p' !! k = p !! k)
    ∧ size p' = match p !! new with
                | Some _ => size p - 1
                | None => size p
                end.
Proof.
  intros Hf Hne Hold. exists (rename_key old new p). split_and!.
  - by apply rename_property_with_properties.
  - rewrite lookup_rename_key by done. rewrite decide_True by done.
    by rewrite Hold.
  - rewrite lookup_rename_key by done. rewrite decide_False by done.
    by rewrite decide_True.
  - intros k H1 H2. rewrite lookup_rename_key by done.
    by rewrite !decide_False.
  - unfold rename_key. rewrite Hold.
    rewrite map_size_insert, lookup_delete_ne, map_size_delete, Hold by done.
    assert (size p ≠ 0) as Hsize.
    { apply map_size_non_empty_iff. intros ->. by rewrite lookup_empty in Hold. }
    destruct (p !! new); cbn; lia.
Qed.

Lemma display_export_id p :
  p !! "pcode" = None → p !! "gis_name" = None →
  display_names (export_names p) = p.
Proof.
  intros Hpcode Hgis. apply map_eq. intros k.
  rewrite lookup_display_names, !lookup_export_names. cbn.
  rewrite Hpcode, Hgis.
  repeat (case_decide; subst; try done); by repeat case_match.
Qed.

(** X22: a feature as the page holds it after the display rename comes
    back unchanged from the export rename followed by the display rename:
    what an export does to the features of the session, the next run of
    the script undoes. *)
Theorem export_then_display_restores f p :
  feature_with p f →
  ∃ shown,
    display_rename f = Ok shown
    ∧ (export_rename shown ≫= display_rename) = Ok shown.
Proof.
  intros Hf. exists (with_properties (display_names p) f). split.
  - by apply display_rename_with_properties.
  - rewrite (export_rename_with_properties (display_names p))
      by by eapply feature_with_with_properties.
    cbn. rewrite with_properties_twice.
    rewrite (display_rename_with_properties (export_names (display_names p)))
      by by eapply feature_with_with_properties.
    rewrite with_properties_twice.
    rewrite display_export_id; [done|..];
      rewrite lookup_display_names; by repeat case_decide.
Qed.

(** X23: whatever is selected, no feature of the written document holds a
    display name: each has its properties without [site_code] and without
    [name], and the document holds no more features than the page. *)
Theorem export_writes_no_display_name cc fo fl sel :
  Forall (λ f, ∃ p, feature_with p f) fo →
  sel ≠ [] →
  ∃ renamed,
    events (export_block cc fo fl sel) =
      [StSuccess ("Exported " +:+ pretty (length renamed) +:+
                  " features to " +:+ export_path cc);
       WriteFile (export_path cc) (feature_collection renamed);
       DownloadButton (export_name cc) (feature_collection renamed)]
    ∧ Forall (λ f', ∃ p', feature_with p' f'
                          ∧ p' !! "site_code" = None
                          ∧ p' !! "name" = None) renamed
    ∧ length renamed ≤ length fo.
Proof.
  intros Hfo Hsel.
  assert (Forall (λ f, ∃ p, feature_with p f) (kept fo fl sel)) as Hkept.
  { rewrite Forall_forall in Hfo. apply Forall_forall. intros f Hin.
    by apply Hfo, (kept_subseteq fo fl sel). }
  assert (∃ renamed,
    Forall2 (λ f f', export_rename f = Ok f') (kept fo fl sel) renamed
    ∧ Forall (λ f', ∃ p', feature_with p' f'
                          ∧ p' !! "site_code" = None
                          ∧ p' !! "name" = None) renamed)
    as (renamed & Hrenamed & Hnames).
  { induction Hkept as [|f ? [p Hp] _ (renamed & IH1 & IH2)].
    - exists []. split; constructor.
    - exists (with_properties (export_names p) f :: renamed). split.
      + constructor; [|done]. by apply export_rename_with_properties.
      + constructor; [|done]. exists (export_names p). split_and!.
        * by eapply feature_with_with_properties.
        * by rewrite lookup_export_names.
        * by rewrite lookup_export_names. }
  exists renamed. split_and!.
  - by apply export_block_events.
  - done.
  - rewrite <- (Forall2_length _ _ _ Hrenamed). unfold kept.
    rewrite length_fmap. etrans; [apply length_filter|].
    rewrite length_zip_with. lia.
Qed.


Lemma picked_cons sel k f lab l :
  picked sel k ((f, lab) :: l) =
    (if decide (lab ∈ sel) then [(k, f)] else []) ++ picked sel (S k) l.
Proof.
  unfold picked. rewrite imap_cons, filter_cons. cbn [snd fst].
  rewrite (imap_ext _ (λ i x, (S k + i, x)) l)
    by (intros; cbn; f_equal; lia).
  replace (k + 0) with k by lia.
  by case_decide.
Qed.

Lemma store_after_spec sel l : ∀ k store renamed,
  mapM export_rename (picked sel k l).*2 = Ok renamed →
  k + length l ≤ length store →
  let store' := store_after (picked sel k l) renamed store in
  length store' = length store
  ∧ (∀ j, j < k ∨ k + length l ≤ j → store' !! j = store !! j)
  ∧ (∀ i f lab, l !! i = Some (f, lab) →
       (lab ∈ sel → ∃ f', export_rename f = Ok f' ∧ store' !! (k + i) = Some f')
       ∧ (lab ∉ sel → store' !! (k + i) = store !! (k + i))).
Proof.
  induction l as [|[f0 lab0] l IH]; intros k store renamed Hmap Hlen.
  - cbn in Hmap. injection Hmap as <-. cbn. split_and!; try done.
  - rewrite picked_cons in Hmap |- *. cbn [length] in Hlen |- *.
    destruct (decide (lab0 ∈ sel)) as [Hin|Hnotin].
    + cbn in Hmap.
      destruct (export_rename f0) as [f0'|] eqn:Hf0; cbn in Hmap; [|done].
      destruct (mapM export_rename (picked sel (S k) l).*2)
        as [renamed'|] eqn:Hmap'; cbn in Hmap; [|done].
      injection Hmap as <-.
      destruct (IH (S k) store renamed' Hmap' ltac:(lia))
        as (Hlen' & Hout & Hin').
      unfold store_after. cbn.
      change (foldr _ store (zip (picked sel (S k) l).*1 renamed'))
        with (store_after (picked sel (S k) l) renamed' store).
      split_and!.
      * by rewrite length_insert.
      * intros j Hj. rewrite list_lookup_insert_ne by lia.
        apply Hout. lia.
      * intros [|i] f lab Hi; cbn in Hi.
        -- injection Hi as -> ->. replace (k + 0) with k by lia. split.
           ++ intros _. exists f0'. split; [done|].
              apply list_lookup_insert_eq. lia.
           ++ done.
        -- replace (k + S i) with (S k + i) by lia.
           rewrite list_lookup_insert_ne by lia. by apply Hin'.
    + cbn [app] in Hmap |- *.
      destruct (IH (S k) store renamed Hmap ltac:(lia))
        as (Hlen' & Hout & Hin').
      split_and!.
      * done.
      * intros j Hj. apply Hout. lia.
      * intros [|i] f lab Hi; cbn in Hi.
        -- injection Hi as -> ->. replace (k + 0) with k by lia. split.
           ++ done.
           ++ intros _. apply Hout. lia.
        -- replace (k + S i) with (S k + i) by lia. by apply Hin'.
Qed.

(** X24: the export renames the features it writes where they are, in the
    list of the session: after it the list has its length, every selected
    feature sits renamed at its position, and every other feature is as it
    was. *)
Theorem export_renames_in_place cc fo fl sel :
  Forall (λ f, ∃ p, feature_with p f) fo →
  sel ≠ [] →
  ∃ fo',
    outcome (export_block cc fo fl sel) = Ok fo'
    ∧ length fo' = length fo
    ∧ ∀ i f, fo !! i = Some f →
        (∀ lab, fl !! i = Some lab → lab ∈ sel →
           ∃ f', export_rename f = Ok f' ∧ fo' !! i = Some f')
        ∧ ((∀ lab, fl !! i = Some lab → lab ∉ sel) → fo' !! i = Some f).
Proof.
  intros Hfo Hsel.
  assert (∃ renamed,
    mapM export_rename (filtered_features fo fl sel).*2 = Ok renamed)
    as [renamed Hmap].
  { rewrite filtered_features_kept.
    assert (Forall (λ f, ∃ p, feature_with p f) (kept fo fl sel)) as Hkept.
    { rewrite Forall_forall in Hfo. apply Forall_forall. intros f Hin.
      by apply Hfo, (kept_subseteq fo fl sel). }
    induction Hkept as [|f ? [p Hp] _ [renamed IH]]; [by exists []|].
    eexists. cbn. rewrite (export_rename_with_properties p) by done.
    cbn. by rewrite IH. }
  change (filtered_features fo fl sel) with (picked sel 0 (zip fo fl)) in Hmap.
  destruct (store_after_spec sel (zip fo fl) 0 fo renamed Hmap)
    as (Hlen & Hout & Hin).
  { rewrite length_zip_with. lia. }
  exists (store_after (picked sel 0 (zip fo fl)) renamed fo). split_and!.
  - destruct sel as [|s sel]; [done|]. unfold export_block.
    change (filtered_features fo fl (s :: sel))
      with (picked (s :: sel) 0 (zip fo fl)).
    by rewrite Hmap.
  - done.
  - intros i f Hf. split.
    + intros lab Hlab Hsel'.
      apply (Hin i f lab); [|done]. apply lookup_zip_with_Some. eauto.
    + intros Hnone. destruct (fl !! i) as [lab|] eqn:Hlab.
      * rewrite <- Hf. apply (Hin i f lab); [|by apply Hnone].
        apply lookup_zip_with_Some. eauto.
      * rewrite <- Hf. apply Hout. right. cbn.
        rewrite length_zip_with. apply lookup_ge_None in Hlab. lia.
Qed.


(** *** One run of the script *)

#[local] Arguments list_countries : simpl never.
#[local] Arguments process_country : simpl never.

#[local] Abbreviation app' :=
  (app service json_error_is_request_exception exn_text py_repr point_buffer).

(** X25: with nothing in the session, a run of the script in which no
    country is processed shows no map and writes no file: it ends after
    the list of the countries, or, when "Process Country" was clicked
    without a country, after the warning to select one, and the session
    stays empty. *)
Theorem app_without_country w log countries :
  list_countries' = (log, Ok countries) →
  (process_clicked w = true →
   country_code w = None ∨ country_code w = Some EmptyString) →
  app' None w =
    (SetupFolder EXPORT_FOLDER :: StTitle "UNHCR Geodata Extractor" ::
     log ++ (if process_clicked w
             then [StWarning "Please select a country"] else []),
     Ok None).
Proof.
  intros Hlist Hcode. unfold app. rewrite Hlist.
  destruct (process_clicked w); step.
  - by destruct Hcode as [-> | ->].
  - by rewrite app_nil_r.
Qed.

(** X26: a country for which [process_country] returns a collection
    without any feature makes the run of the script raise
    [StopIteration]: the collection is put in the session, since a dict
    with a key is true for Python, and the selection of a feature finds
    none. *)
Theorem app_empty_collection w session log countries cc log' d :
  list_countries' = (log, Ok countries) →
  process_clicked w = true →
  country_code w = Some cc →
  cc ≠ EmptyString →
  process_country' cc (buffer_size_points w) = (log', Ok (Some (JObj d))) →
  d !! "features" = Some (JArr []) →
  app' session w =
    (SetupFolder EXPORT_FOLDER :: StTitle "UNHCR Geodata Extractor" ::
     log ++
     StWrite ("Processing country: " +:+ cc +:+
              " with buffer size for points: " +:+
              py_str py_repr (JFloat (buffer_size_points w))) :: log',
     Raise StopIteration).
Proof.
  intros Hlist Hclicked Hcode Hcc Hrun Hd.
  unfold app. rewrite Hlist, Hclicked, Hcode.
  apply String.eqb_neq in Hcc. rewrite Hcc. cbn [negb].
  rewrite Hrun. step. rewrite (truthy_lookup _ _ _ Hd). step.
  unfold display. step. rewrite Hd. step. by rewrite !app_nil_r.
Qed.

End Coverage.

(** ** The filters of the two queries *)

Lemma append_String c s t : String c s +:+ t = String c (s +:+ t).
Proof. done. Qed.

Lemma append_nil_r s : s +:+ EmptyString = s.
Proof.
  induction s as [|c s IH]; [done|]. rewrite append_String. by rewrite IH.
Qed.

Lemma lex_in_literal s acc rest :
  quote_free s = true →
  Sql.lex (Sql.InLiteral acc) (s +:+ rest)
    = Sql.lex (Sql.InLiteral (acc +:+ s)) rest.
Proof.
  revert acc. induction s as [|c s IH]; intros acc Hs.
  - by rewrite append_nil_r.
  - cbn in Hs. apply andb_true_iff in Hs as [Hc Hs].
    rewrite append_String. cbn [Sql.lex].
    destruct (Ascii.eqb c "'"); [done|].
    rewrite IH by done. unfold Sql.snoc. by rewrite append_assoc.
Qed.

Lemma lex_quoted n rest :
  quote_free n = true →
  Sql.lex Sql.Idle (("'" +:+ n +:+ "'") +:+ rest)
    = Sql.lex (Sql.QuoteSeen n) rest.
Proof.
  intros Hn.
  rewrite (append_assoc "'"), (append_assoc n).
  change ("'" +:+ n +:+ "'" +:+ rest) with (String "'" (n +:+ String "'" rest)).
  cbn [Sql.lex]. cbn [Ascii.eqb Bool.eqb]. cbn.
  rewrite lex_in_literal by done.
  done.
Qed.

Lemma lex_after_value_comma acc s :
  Sql.lex (Sql.QuoteSeen acc) ("," +:+ s)
    = (Sql.Literal acc ::.) <$> ((Sql.Comma ::.) <$> Sql.lex Sql.Idle s).
Proof. done. Qed.

Lemma lex_value_list names :
  Forall (λ n, quote_free n = true) names →
  names ≠ [] →
  Sql.lex Sql.Idle (join "," ((λ n, "'" +:+ n +:+ "'") <$> names) +:+ ")")
    = Some (value_list_tokens names).
Proof.
  induction 1 as [|n names Hn Hnames IH]; intros Hne; [done|].
  destruct names as [|n' names].
  - cbn [fmap list_fmap join value_list_tokens]. by rewrite lex_quoted.
  - change (join "," ((λ n, "'" +:+ n +:+ "'") <$> n :: n' :: names))
      with (("'" +:+ n +:+ "'") +:+ "," +:+
            join "," ((λ n, "'" +:+ n +:+ "'") <$> n' :: names)).
    rewrite (append_assoc ("'" +:+ n +:+ "'")), (append_assoc ",").
    rewrite lex_quoted by done.
    rewrite lex_after_value_comma, IH by done. done.
Qed.

Lemma run_value_list st names :
  st = Sql.FirstValue ∨ st = Sql.NextValue →
  names ≠ [] →
  Sql.run st (value_list_tokens names) = Some Sql.Complete.
Proof.
  intros Hst Hne. revert st Hst.
  induction names as [|n names IH]; intros st Hst; [done|].
  destruct names as [|n' names].
  - by destruct Hst as [-> | ->].
  - change (value_list_tokens (n :: n' :: names))
      with (Sql.Literal n :: Sql.Comma :: value_list_tokens (n' :: names)).
    destruct Hst as [-> | ->]; cbn; apply IH; auto.
Qed.

Lemma lex_like_filter rest :
  Sql.lex Sql.Idle ("site_code LIKE '" +:+ rest)
    = (Sql.Word "site_code" ::.) <$>
        ((Sql.Word "LIKE" ::.) <$> Sql.lex (Sql.InLiteral EmptyString) rest).
Proof. done. Qed.

Lemma lex_iso3_filter rest :
  Sql.lex Sql.Idle ("iso3='" +:+ rest)
    = (Sql.Word "iso3" ::.) <$>
        ((Sql.Equals ::.) <$> Sql.lex (Sql.InLiteral EmptyString) rest).
Proof. done. Qed.

Lemma lex_not_in_filter acc rest :
  Sql.lex (Sql.InLiteral acc) ("' AND pcode NOT IN (" +:+ rest)
    = (λ ts, [Sql.Literal acc; Sql.Word "AND"; Sql.Word "pcode";
              Sql.Word "NOT"; Sql.Word "IN"; Sql.LParen] ++ ts)
        <$> Sql.lex Sql.Idle rest.
Proof.
  change (Sql.lex (Sql.InLiteral acc) ("' AND pcode NOT IN (" +:+ rest))
    with ((Sql.Literal acc ::.) <$> ((Sql.Word "AND" ::.) <$>
          ((Sql.Word "pcode" ::.) <$> ((Sql.Word "NOT" ::.) <$>
          ((Sql.Word "IN" ::.) <$> ((Sql.LParen ::.) <$>
           Sql.lex Sql.Idle rest)))))).
  by destruct (Sql.lex Sql.Idle rest).
Qed.

(** X9: as long as the country code and the site codes hold no
    apostrophe, the filter of [query_polygons] is a well-formed search
    condition, and so is the filter of [query_points] for one or more
    site codes to exclude. *)
Theorem filters_well_formed py_repr country_code names :
  quote_free country_code = true →
  Forall (λ n, quote_free n = true) names →
  names ≠ [] →
  Sql.well_formed ("site_code LIKE '" +:+ country_code +:+ "%'") = true
  ∧ Sql.well_formed (where_clause py_repr country_code (JStr <$> names)) = true.
Proof.
  intros Hcc Hnames Hne. split; unfold Sql.well_formed.
  - rewrite lex_like_filter, lex_in_literal by done. done.
  - unfold where_clause. rewrite <- list_fmap_compose.
    change ((λ code, "'" +:+ py_str py_repr code +:+ "'") ∘ JStr)
      with (λ n : string, "'" +:+ n +:+ "'").
    rewrite lex_iso3_filter, lex_in_literal, lex_not_in_filter by done.
    rewrite lex_value_list by done. cbn [fmap option_fmap option_map].
    cbn [mbind option_bind].
    assert (∀ x ts,
      Sql.run Sql.Field
        (Sql.Word "iso3" :: Sql.Equals ::
         [Sql.Literal x; Sql.Word "AND"; Sql.Word "pcode"; Sql.Word "NOT";
          Sql.Word "IN"; Sql.LParen] ++ ts)
      = Sql.run Sql.FirstValue ts) as -> by done.
    by rewrite run_value_list by auto.
Qed.

(** ** The program on the sample services *)

Import Fixtures.

(** C1 (what the code does): when the polygon layer answers with zero
    features, [process_country] does not report "no data": the answer it
    tests is the dict with the [feature_type] it has just set, which is
    never empty, so it goes on, queries the point layer with nothing to
    exclude and returns a collection. *)
Theorem process_country_zero_polygons_queries_points :
  process_country service_empty true text_of_exn repr square_buffer "ABC" 0.01
  = ([HttpGet POLYGON_URL (query_polygons_params "ABC");
      Print "Successfully fetched 0 official polygons";
      HttpGet POINT_URL (query_points_params repr "ABC" []);
      Print "No points data found"],
     Ok (Some (JObj {[ "type" := JStr "FeatureCollection";
                       "features" := JArr [];
                       "feature_type" := JStr "Polygon" ]}))).
Proof. vm_compute. reflexivity. Qed.

(** C5 (what the code does): a feature without [site_code] makes
    [list_countries] raise [KeyError]; an answer without [features] makes
    [query_points] raise [KeyError]; and on a failed request
    [query_points] returns the empty dict with a line on the standard
    output, where the two other operations show an error on the page. *)
Theorem client_failures_escape :
  list_countries service_no_site_code true text_of_exn
    = ([HttpGet POLYGON_URL list_countries_params], Raise KeyError)
  ∧ query_points service_error_document true text_of_exn repr "ABC" []
    = ([HttpGet POINT_URL (query_points_params repr "ABC" [])], Raise KeyError)
  ∧ query_points service_points_down true text_of_exn repr "ABC" []
    = ([HttpGet POINT_URL (query_points_params repr "ABC" []);
        Print "Failed to fetch data: 500 Error"], Ok (JObj ∅)).
Proof. vm_compute. repeat split. Qed.

(** C7, as stated, fails on a site code of two characters. *)
Lemma list_countries_entry_of_two_characters :
  ∃ countries,
    outcome (list_countries service_short_code true text_of_exn) = Ok countries
    ∧ ¬ Forall (λ c, String.length c = 3) countries.
Proof.
  exists ["AB"]. split; [by vm_compute|].
  intros H. by apply Forall_inv in H.
Qed.


(** C6, as stated, fails when the one selected label belongs to two
    features: the document holds both. *)
Lemma export_one_label_two_features :
    mapM (feature_label repr) twins = Ok [twin_label; twin_label]
    ∧ events (export_block (Some "ABC") twins [twin_label; twin_label] [twin_label])
      = [StSuccess "Exported 2 features to data/ABC_filtered_polygons.geojson";
         WriteFile "data/ABC_filtered_polygons.geojson" (feature_collection twins_exported);
         DownloadButton "ABC_filtered_polygons.geojson" (feature_collection twins_exported)]
    ∧ length twins_exported ≠ 1.
Proof.
  split; [|split]; [vm_compute; reflexivity..|done].
Qed.

(** *** The theorems at the sample services *)

Lemma polygons_ABC_site_features :
  Forall2 site_feature ["ABC001"; "ABC002"] polygons_ABC.
Proof.
  repeat constructor;
    (eexists; split; [eexists; split; reflexivity|reflexivity]).
Qed.

Lemma polygons_ABC_site_codes :
  Forall2 has_site_code [JStr "ABC001"; JStr "ABC002"] polygons_ABC.
Proof.
  repeat constructor;
    (eexists; split; [eexists; split; reflexivity|reflexivity]).
Qed.

Lemma list_countries_distinct_sorted_prefixes_witness :
  ∃ countries,
    list_countries service_ABC true text_of_exn
      = ([HttpGet POLYGON_URL list_countries_params], Ok countries)
    ∧ NoDup countries
    ∧ Forall (λ c, String.length c = 3) countries.
Proof.
  destruct (list_countries_distinct_sorted_prefixes service_ABC true text_of_exn
              200 answer_ABC polygons_ABC ["ABC001"; "ABC002"])
    as (countries & Hrun & Hnodup & _ & _ & _ & Hthree).
  - reflexivity.
  - unfold ok_status. lia.
  - reflexivity.
  - exact polygons_ABC_site_features.
  - exists countries. split_and!; [done..|].
    apply Hthree. repeat constructor; cbn; lia.
Defined.

Lemma gen_polygons_same_count_order_properties_witness :
  ∃ out,
    gen_polygons square_buffer (JObj points_answer_ABC) 0.01
      = Ok (feature_collection out)
    ∧ length out = 2.
Proof.
  destruct (gen_polygons_same_count_order_properties square_buffer
              points_answer_ABC points_ABC 0.01)
    as (out & Hrun & Hlen & _).
  - reflexivity.
  - constructor; [|constructor; [|constructor]].
    + exists (JObj {[ "pcode" := JStr "ABC003"; "gis_name" := JStr "East" ]}),
        (square 5 5 0.01), (JArr [JFloat 5; JFloat 5]).
      split; [|reflexivity]. eexists _, _. split_and!; reflexivity.
    + exists (JObj {[ "pcode" := JStr "ABC004"; "gis_name" := JStr "West" ]}),
        (square 7 7 0.01), (JArr [JFloat 7; JFloat 7]).
      split; [|reflexivity]. eexists _, _. split_and!; reflexivity.
  - by exists out.
Defined.


Lemma export_nothing_or_the_one_witness :
  ∃ exported,
    events (export_block (Some "ABC") polygons_ABC [north_label; south_label]
                         [south_label])
    = [StSuccess ("Exported 1 features to " +:+ export_path (Some "ABC"));
       WriteFile (export_path (Some "ABC")) (feature_collection [exported]);
       DownloadButton (export_name (Some "ABC")) (feature_collection [exported])]
    ∧ (getitem exported "properties" ≫= λ p, getitem p "pcode")
      = Ok (JStr "ABC002").
Proof.
  destruct (export_nothing_or_the_one (Some "ABC") polygons_ABC
              [north_label; south_label] south_label 1
              (feature {[ "site_code" := JStr "ABC002"; "name" := JStr "South" ]}
                       (square 3 3 0.5))
              {[ "site_code" := JStr "ABC002"; "name" := JStr "South" ]})
    as (_ & Hevents & _).
  - reflexivity.
  - reflexivity.
  - intros [|[|j]] Hj; [by vm_compute in Hj|done|done].
  - eexists. split; reflexivity.
  - eexists. split; [exact Hevents|]. by vm_compute.
Defined.

Lemma features_go_by_label_witness :
  ∃ renamed,
    events (export_block (Some "ABC") twins [twin_label; twin_label] [twin_label])
    = [StSuccess ("Exported " +:+ pretty (length renamed) +:+
                  " features to " +:+ export_path (Some "ABC"));
       WriteFile (export_path (Some "ABC")) (feature_collection renamed);
       DownloadButton (export_name (Some "ABC")) (feature_collection renamed)]
    ∧ 2 ≤ length renamed.
Proof.
  destruct (features_go_by_label (Some "ABC") twins [twin_label; twin_label]
              [twin_label])
    as (_ & renamed & Hevents & _ & _ & Htwo).
  - reflexivity.
  - repeat constructor; (eexists; eexists; split; reflexivity).
  - done.
  - exists renamed. split; [done|].
    apply (Htwo twin_label 0 1); [lia|reflexivity|reflexivity|].
    apply list_elem_of_singleton. reflexivity.
Defined.

Lemma process_country_official_polygons_alone_witness :
  ∃ log official,
    process_country service_points_down true text_of_exn repr square_buffer
                    "ABC" 0.01
      = (log, Ok (Some official))
    ∧ truthy official = true.
Proof.
  eexists _, _.
  apply (process_country_official_polygons_alone service_points_down true
           text_of_exn repr square_buffer "ABC" 0.01
           polygons_log official_ABC polygons_ABC
           [JStr "ABC001"; JStr "ABC002"]
           (points_log ++ [Print "Failed to fetch data: 500 Error"]) ∅).
  - by vm_compute.
  - reflexivity.
  - exact polygons_ABC_site_codes.
  - by vm_compute.
  - reflexivity.
Defined.

Lemma process_country_official_then_generated_witness :
  ∃ log features,
    process_country service_ABC true text_of_exn repr square_buffer "ABC" 0.01
      = (log, Ok (Some (feature_collection features)))
    ∧ length features = 4.
Proof.
  destruct (process_country_official_then_generated service_ABC true
           text_of_exn repr square_buffer "ABC" 0.01
           polygons_log official_ABC polygons_ABC
           [JStr "ABC001"; JStr "ABC002"]
           points_log points_data_ABC points_returned generated_ABC)
    as (Hrun & _).
  - by vm_compute.
  - reflexivity.
  - exact polygons_ABC_site_codes.
  - by vm_compute.
  - reflexivity.
  - done.
  - repeat constructor;
      (eexists _, _, _; split_and!;
       [eexists _, _; split_and!; reflexivity|reflexivity|reflexivity]).
  - eexists _, _. split; [exact Hrun|reflexivity].
Defined.

(** ** The further facts at the sample services *)

Lemma list_countries_fetch_fails_witness :
  outcome (list_countries service_down true text_of_exn) = Ok [].
Proof.
  apply (list_countries_fetch_fails service_down true text_of_exn
           ConnectionError).
  left. left. split; reflexivity.
Defined.

Lemma query_polygons_fetch_fails_witness :
  outcome (query_polygons service_down true text_of_exn "ABC") = Ok (JObj ∅).
Proof.
  apply (query_polygons_fetch_fails service_down true text_of_exn "ABC"
           ConnectionError).
  left. left. split; reflexivity.
Defined.

Lemma query_points_fetch_fails_witness :
  query_points service_points_down true text_of_exn repr "ABC" []
  = ([HttpGet POINT_URL (query_points_params repr "ABC" []);
      Print ("Failed to fetch data: " +:+ text_of_exn (HTTPError 500))],
     Ok (JObj ∅)).
Proof.
  apply (query_points_fetch_fails service_points_down true text_of_exn repr
           "ABC" [] (HTTPError 500)).
  left. right. exists 500%Z, None. split_and!; [reflexivity| |reflexivity].
  unfold ok_status. lia.
Defined.

Lemma client_json_error_escapes_witness :
  query_polygons service_not_json false text_of_exn "ABC"
  = ([HttpGet POLYGON_URL (query_polygons_params "ABC")],
     Raise JSONDecodeError).
Proof.
  apply (client_json_error_escapes service_not_json false text_of_exn repr
           "ABC" [] 200).
  - reflexivity.
  - unfold ok_status. lia.
  - reflexivity.
Defined.

Lemma query_polygons_answer_witness :
  ∃ result,
    query_polygons service_ABC true text_of_exn "ABC"
      = ([HttpGet POLYGON_URL (query_polygons_params "ABC")], Ok (JObj result))
    ∧ result !! "feature_type" = Some (JStr "Polygon").
Proof.
  destruct (query_polygons_answer service_ABC true text_of_exn "ABC" 200
              (JObj answer_ABC)) as (result & Hrun & Htype & _).
  - reflexivity.
  - unfold ok_status. lia.
  - by exists result.
Defined.

Lemma query_points_answer_witness :
  ∃ points',
    outcome (query_points service_ABC true text_of_exn repr "ABC"
               [JStr "ABC001"; JStr "ABC002"])
      = Ok (JObj (<["feature_type" := JStr "Point"]>
                   (<["features" := JArr points']> points_answer_ABC)))
    ∧ length points' = 2.
Proof.
  destruct (query_points_answer service_ABC true text_of_exn repr "ABC"
              [JStr "ABC001"; JStr "ABC002"] 200 points_answer_ABC points_ABC)
    as (points' & Hrun & Hpoints).
  - reflexivity.
  - unfold ok_status. lia.
  - reflexivity.
  - repeat constructor;
      (eexists; split; [eexists; split; reflexivity|by eexists]).
  - exists points'. split; [by rewrite Hrun|].
    by apply Forall2_length in Hpoints.
Defined.

Lemma query_points_missing_gis_name_witness :
  outcome (query_points service_no_gis_name true text_of_exn repr "ABC" [])
  = Raise KeyError.
Proof.
  rewrite (query_points_missing_gis_name service_no_gis_name true text_of_exn
             repr "ABC" [] 200
             {[ "type" := JStr "FeatureCollection";
                "features" := JArr points_no_gis_name ]}
             points_no_gis_name); [done|reflexivity| |reflexivity|..].
  - unfold ok_status. lia.
  - repeat constructor; (eexists; eexists; split; reflexivity).
  - apply Exists_cons_tl, Exists_cons_hd.
    eexists. split; [eexists; split; reflexivity|reflexivity].
Defined.

Lemma list_countries_missing_site_code_witness :
  outcome (list_countries service_no_site_code true text_of_exn)
  = Raise KeyError.
Proof.
  rewrite (list_countries_missing_site_code service_no_site_code true
             text_of_exn 200
             {[ "type" := JStr "FeatureCollection";
                "features" :=
                  JArr [feature {[ "name" := JStr "North" ]} (square 1 1 0.5)] ]}
             [feature {[ "name" := JStr "North" ]} (square 1 1 0.5)]);
    [done|reflexivity| |reflexivity|..].
  - unfold ok_status. lia.
  - constructor; [right|constructor].
    eexists. split; [eexists; split; reflexivity|reflexivity].
  - apply Exists_cons_hd.
    eexists. split; [eexists; split; reflexivity|reflexivity].
Defined.

Lemma filters_well_formed_witness :
  Sql.well_formed (where_clause repr "ABC" [JStr "ABC001"; JStr "ABC002"])
  = true.
Proof.
  apply (filters_well_formed repr "ABC" ["ABC001"; "ABC002"]).
  - reflexivity.
  - repeat constructor.
  - done.
Defined.

Lemma extract_site_codes_after_tagging_witness :
  extract_site_codes (JObj answer_ABC) = Ok [JStr "ABC001"; JStr "ABC002"].
Proof.
  destruct (extract_site_codes_after_tagging "Official Polygon" answer_ABC
              polygons_ABC [JStr "ABC001"; JStr "ABC002"])
    as (tagged & _ & Hcodes & _).
  - reflexivity.
  - exact polygons_ABC_site_codes.
  - exact Hcodes.
Defined.

Lemma square_buffer_no_assertion coords r :
  square_buffer coords r ≠ Raise AssertionError.
Proof.
  unfold square_buffer. repeat case_match; done.
Qed.

Lemma gen_polygons_assertion_holds_witness :
  gen_polygons square_buffer (JObj points_answer_ABC) 0.01
  ≠ Raise AssertionError.
Proof.
  apply (gen_polygons_assertion_holds square_buffer (JObj points_answer_ABC)
           0.01).
  intros coords. apply square_buffer_no_assertion.
Defined.

Lemma gen_polygons_missing_geometry_witness :
  gen_polygons square_buffer (feature_collection points_no_geometry) 0.01
  = Raise KeyError.
Proof.
  apply (gen_polygons_missing_geometry square_buffer
           {[ "type" := JStr "FeatureCollection";
              "features" := JArr points_no_geometry ]}
           points_no_geometry 0.01).
  - reflexivity.
  - constructor; [left|constructor; [right|constructor]].
    + exists (JObj {[ "pcode" := JStr "ABC003"; "gis_name" := JStr "East" ]}),
        (square 5 5 0.01), (JArr [JFloat 5; JFloat 5]).
      split; [|reflexivity]. eexists _, _. split_and!; reflexivity.
    + eexists. split; reflexivity.
  - apply Exists_cons_tl, Exists_cons_hd. eexists. split; reflexivity.
Defined.

Lemma gen_polygons_raises_with_shapely_witness :
  gen_polygons square_buffer (feature_collection points_no_number) 0.01
  = Raise TypeError.
Proof.
  apply (gen_polygons_raises_with_shapely square_buffer
           {[ "type" := JStr "FeatureCollection";
              "features" := JArr points_no_number ]}
           [feature {[ "pcode" := JStr "ABC003"; "gis_name" := JStr "East" ]}
                    (point 5 5)]
           (feature {[ "pcode" := JStr "ABC004" ]}
                    (JObj {[ "type" := JStr "Point";
                             "coordinates" := JArr [JNull; JNull] ]}))
           [] 0.01
           {[ "type" := JStr "Feature";
              "properties" := JObj {[ "pcode" := JStr "ABC004" ]};
              "geometry" := JObj {[ "type" := JStr "Point";
                                    "coordinates" := JArr [JNull; JNull] ]} ]}
           {[ "type" := JStr "Point"; "coordinates" := JArr [JNull; JNull] ]}
           (JArr [JNull; JNull])).
  - reflexivity.
  - constructor; [|constructor].
    exists (JObj {[ "pcode" := JStr "ABC003"; "gis_name" := JStr "East" ]}),
      (square 5 5 0.01), (JArr [JFloat 5; JFloat 5]).
    split; [|reflexivity]. eexists _, _. split_and!; reflexivity.
  - reflexivity.
  - reflexivity.
  - reflexivity.
  - reflexivity.
Defined.

Lemma process_country_fetch_fails_witness :
  process_country service_down true text_of_exn repr square_buffer "ABC" 0.01
  = ([HttpGet POLYGON_URL (query_polygons_params "ABC");
      StError ("Failed to fetch data: " +:+ text_of_exn ConnectionError);
      Print "No data found for the country"], Ok None).
Proof.
  apply (process_country_fetch_fails service_down true text_of_exn repr
           square_buffer "ABC" 0.01 ConnectionError).
  left. left. split; reflexivity.
Defined.

Lemma process_country_None_witness :
  ∃ e, fetch_fails service_down true POLYGON_URL (query_polygons_params "ABC") e.
Proof.
  apply (process_country_None service_down true text_of_exn repr
           square_buffer "ABC" 0.01).
  reflexivity.
Defined.

Lemma process_country_excludes_official_sites_witness :
  ∃ rest,
    events (process_country service_ABC true text_of_exn repr square_buffer
              "ABC" 0.01) =
      polygons_log ++
      [Print ("Successfully fetched " +:+ pretty 2 +:+ " official polygons");
       HttpGet POINT_URL
         (query_points_params repr "ABC" [JStr "ABC001"; JStr "ABC002"])]
      ++ rest.
Proof.
  apply (process_country_excludes_official_sites service_ABC true text_of_exn
           repr square_buffer "ABC" 0.01 polygons_log official_ABC
           polygons_ABC [JStr "ABC001"; JStr "ABC002"]).
  - reflexivity.
  - reflexivity.
  - exact polygons_ABC_site_codes.
Defined.

Lemma process_country_from_answers_witness :
  outcome (process_country service_ABC true text_of_exn repr square_buffer
             "ABC" 0.01)
  = Ok (Some (feature_collection
                ((with_feature_type "Official Polygon" <$> polygons_ABC)
                 ++ generated_ABC))).
Proof.
  destruct (process_country_from_answers service_ABC true text_of_exn repr
              square_buffer "ABC" 0.01 200 answer_ABC polygons_ABC
              [JStr "ABC001"; JStr "ABC002"] 200 points_answer_ABC points_ABC
              generated_ABC) as [Hrun _].
  - reflexivity.
  - unfold ok_status. lia.
  - reflexivity.
  - exact polygons_ABC_site_codes.
  - reflexivity.
  - unfold ok_status. lia.
  - reflexivity.
  - done.
  - constructor; [|constructor; [|constructor]];
      eexists _, _, _, _, _, _; split_and!; reflexivity.
  - by rewrite Hrun.
Defined.

Lemma label_before_and_after_display_rename_witness :
  feature_label repr generated_feature = Ok "N/A - N/A (Generated Polygon)"
  ∧ (display_rename generated_feature ≫= feature_label repr)
    = Ok "ABC003 - East (Generated Polygon)".
Proof.
  apply (label_before_and_after_display_rename repr generated_feature
           generated_properties (JStr "ABC003") (JStr "East")).
  - eexists. split; reflexivity.
  - reflexivity.
  - reflexivity.
  - reflexivity.
  - reflexivity.
Defined.

Lemma display_without_selection_witness :
  display repr idle (JObj no_site) = ([], Raise StopIteration).
Proof.
  apply (display_without_selection repr idle no_site []).
  - reflexivity.
  - constructor.
  - intros f l Hf. by apply elem_of_nil in Hf.
Defined.

Lemma map_center_first_position_witness :
  map_center (feature {[ "site_code" := JStr "ABC001" ]} (square 2 3 0.5))
  = Ok (JFloat 2.5, JFloat 1.5).
Proof.
  destruct (map_center_first_position
              (feature {[ "site_code" := JStr "ABC001" ]} (square 2 3 0.5))
              {[ "type" := JStr "Feature";
                 "properties" := JObj {[ "site_code" := JStr "ABC001" ]};
                 "geometry" := square 2 3 0.5 ]}
              {[ "type" := JStr "Polygon";
                 "coordinates" :=
                   JArr [JArr [JArr [JFloat 1.5; JFloat 2.5];
                               JArr [JFloat 2.5; JFloat 2.5];
                               JArr [JFloat 2.5; JFloat 3.5];
                               JArr [JFloat 1.5; JFloat 3.5];
                               JArr [JFloat 1.5; JFloat 2.5]]] ]}
              "Polygon"
              (JArr [JArr [JArr [JFloat 1.5; JFloat 2.5];
                           JArr [JFloat 2.5; JFloat 2.5];
                           JArr [JFloat 2.5; JFloat 3.5];
                           JArr [JFloat 1.5; JFloat 3.5];
                           JArr [JFloat 1.5; JFloat 2.5]]])
              (JFloat 1.5) (JFloat 2.5) []) as [Hpolygon _];
    [reflexivity..|].
  destruct (Hpolygon eq_refl) as [Hfirst _].
  exact (Hfirst _ _ eq_refl).
Defined.

Lemma rename_property_moves_and_overwrites_witness :
  ∃ p',
    rename_property "pcode" "site_code" (feature both_names (point 5 5))
      = Ok (with_properties p' (feature both_names (point 5 5)))
    ∧ p' !! "site_code" = Some (JStr "ABC003")
    ∧ p' !! "pcode" = None
    ∧ size p' = 2.
Proof.
  destruct (rename_property_moves_and_overwrites "pcode" "site_code"
              (feature both_names (point 5 5)) both_names (JStr "ABC003"))
    as (p' & Hrun & Hnew & Hold & _ & Hsize).
  - eexists. split; reflexivity.
  - discriminate.
  - reflexivity.
  - exists p'. split_and!; [exact Hrun|exact Hnew|exact Hold|].
    rewrite Hsize. reflexivity.
Defined.

Lemma export_then_display_restores_witness :
  ∃ shown,
    display_rename generated_feature = Ok shown
    ∧ (export_rename shown ≫= display_rename) = Ok shown.
Proof.
  apply (export_then_display_restores generated_feature generated_properties).
  eexists. split; reflexivity.
Defined.

Lemma twins_features : Forall (λ f, ∃ p, feature_with p f) twins.
Proof. repeat constructor; (eexists; eexists; split; reflexivity). Qed.

Lemma export_writes_no_display_name_witness :
  ∃ renamed,
    events (export_block (Some "ABC") twins [twin_label; twin_label]
              [twin_label]) =
      [StSuccess ("Exported " +:+ pretty (length renamed) +:+
                  " features to " +:+ export_path (Some "ABC"));
       WriteFile (export_path (Some "ABC")) (feature_collection renamed);
       DownloadButton (export_name (Some "ABC")) (feature_collection renamed)]
    ∧ Forall (λ f', ∃ p', feature_with p' f'
                          ∧ p' !! "site_code" = None
                          ∧ p' !! "name" = None) renamed
    ∧ length renamed ≤ length twins.
Proof.
  apply (export_writes_no_display_name (Some "ABC") twins
           [twin_label; twin_label] [twin_label]).
  - exact twins_features.
  - done.
Defined.

Lemma export_renames_in_place_witness :
  ∃ fo',
    outcome (export_block (Some "ABC") twins [twin_label; south_label]
               [twin_label]) = Ok fo'
    ∧ length fo' = 2
    ∧ fo' !! 1 = twins !! 1.
Proof.
  destruct (export_renames_in_place (Some "ABC") twins
              [twin_label; south_label] [twin_label])
    as (fo' & Hrun & Hlen & Hat).
  - exact twins_features.
  - done.
  - exists fo'. split_and!; [done|done|].
    destruct (Hat 1 _ eq_refl) as [_ Hkept]. rewrite Hkept; [done|].
    intros lab [= <-] Hin. apply list_elem_of_singleton in Hin. discriminate Hin.
Defined.

Lemma app_without_country_witness :
  app service_ABC true text_of_exn repr square_buffer None process_nothing
  = ([SetupFolder EXPORT_FOLDER; StTitle "UNHCR Geodata Extractor";
      HttpGet POLYGON_URL list_countries_params;
      StWarning "Please select a country"], Ok None).
Proof.
  apply (app_without_country service_ABC true text_of_exn repr square_buffer
           process_nothing [HttpGet POLYGON_URL list_countries_params]
           ["ABC"]).
  - reflexivity.
  - intros _. by left.
Defined.

Lemma app_empty_collection_witness :
  outcome (app service_empty true text_of_exn repr square_buffer None
             process_ABC)
  = Raise StopIteration.
Proof.
  rewrite (app_empty_collection service_empty true text_of_exn repr
             square_buffer process_ABC None
             [HttpGet POLYGON_URL list_countries_params] [] "ABC"
             no_site_log no_site); [done|reflexivity..|done| |].
  - reflexivity.
  - reflexivity.
Defined.
